(** * iotexec: cloud-to-device command execution service

    A shallow embedding of [src/iotexec.c].  The service receives a
    message (header + body) through the iotclient library, runs the body
    with [popen] and hands the command's output descriptor to
    [IOTCLIENT_Stream] together with a small header blob.

    The iotclient library, stdio and the process primitives are external
    to the program: they are gathered in the [Platform] interface and the
    program is written against it in a state-and-trace monad, so that
    every call of an external function is recorded in order. *)

From Stdlib Require Import ZArith List String Ascii Bool Lia.
Import ListNotations.

Local Open Scope string_scope.
Local Open Scope Z_scope.

(** ** C integers, strings and buffers *)

Module C.

(** [size_t] is 64 bits wide (the program prints it with [%ld]). *)
Definition SIZE_MODULUS : Z := 2 ^ 64.
Definition INT_MAX : Z := 2 ^ 31 - 1.

(** Conversion of an integer to [size_t]. *)
Definition to_size_t (z : Z) : Z := z mod SIZE_MODULUS.

(** Addition of two [size_t] values: it wraps around. *)
Definition size_add (a b : Z) : Z := to_size_t (a + b).

Definition NUL : ascii := Ascii.zero.

(** The newline character, written ['\n'] in the source, and the string
    made of it. *)
Definition newline : ascii := ascii_of_nat 10.
Definition nl : string := String newline EmptyString.

Definition strlen (s : string) : Z := Z.of_nat (String.length s).

(** A buffer is the memory a [char *] points to, indexed from the
    pointer. *)
Definition Buffer : Type := nat -> ascii.

(** [p[i] = c] *)
Definition store (p : Buffer) (i : nat) (c : ascii) : Buffer :=
  fun j => if Nat.eqb j i then c else p j.

(** The C string found at offset [from] of [p]: the bytes before the
    first NUL, looking at [fuel] bytes at most. *)
Fixpoint read_c_string (p : Buffer) (from fuel : nat) : string :=
  match fuel with
  | O => EmptyString
  | S k =>
      if Ascii.eqb (p from) NUL then EmptyString
      else String (p from) (read_c_string p (S from) k)
  end.

(** The buffer that holds the bytes of [s], followed by NULs. *)
Definition buffer_of_string (s : string) : Buffer :=
  fun i => nth i (list_ascii_of_string s) NUL.

(** The lines of a text: the pieces between its newlines. *)
Fixpoint lines_from (s : string) (cur : string) : list string :=
  match s with
  | EmptyString => [cur]
  | String c s' =>
      if Ascii.eqb c newline
      then cur :: lines_from s' EmptyString
      else lines_from s' (cur ++ String c EmptyString)
  end.

Definition lines (s : string) : list string := lines_from s EmptyString.

(** Is the last byte of [s] a newline? *)
Fixpoint ends_with_newline (s : string) : bool :=
  match s with
  | EmptyString => false
  | String c EmptyString => Ascii.eqb c newline
  | String _ s' => ends_with_newline s'
  end.

(** [l] is a whole line of [s]: it starts at the beginning of [s] or
    after a newline, and ends at the end of [s] or before a newline. *)
Definition has_line (l s : string) : Prop :=
  exists pre post,
    s = pre ++ l ++ post
    /\ (pre = EmptyString \/ exists p, pre = p ++ nl)
    /\ (post = EmptyString \/ exists q, post = nl ++ q).

(** [snprintf( buf, size, ... )] for an output that would be [formatted]
    when unbounded: the return value is the length of [formatted], or a
    negative value when that length is not representable as an [int];
    the buffer receives at most [size - 1] bytes of it. *)
Definition snprintf (size : Z) (formatted : string) : Z * string :=
  ( if strlen formatted <=? INT_MAX then strlen formatted else -1,
    substring 0 (Z.to_nat (size - 1)) formatted ).

End C.
Import C.

(** ** Result codes and private definitions *)

(** [EOK] comes from iotclient.h, the others from errno.h (Linux). *)
Definition EOK : Z := 0.
Definition EBADF : Z := 9.
Definition EINVAL : Z := 22.
Definition EMSGSIZE : Z := 90.
Definition ENOTSUP : Z := 95.

(** Maximum command length *)
Definition MAX_MESSAGE_LENGTH : Z := 4096.

(** Maximum pending commands *)
Definition MAX_PENDING_MESSAGES : Z := 10.

(** [char rxMsgId[64]] *)
Definition RXMSGID_SIZE : Z := 64.

(** ** The external collaborators *)

(** What [IOTCLIENT_Receive] leaves in its result and in its four output
    parameters.  A pointer is [None] when it is NULL. *)
Record Received : Type := mkReceived {
  rx_result : Z;
  rx_pHeader : option string;
  rx_pBody : option Buffer;
  rx_headerLength : Z;
  rx_bodyLength : Z
}.

(** The functions of iotclient, stdio and the operating system the
    program calls.  [World] is the state of everything outside the
    program (message queue, processes, cloud connection).

    [IOTCLIENT_GetProperty header name cap] yields the return code and the
    C string the call leaves in the caller's buffer.  [popen] yields
    [None] for a NULL stream.  [BUFSIZ] is the constant of stdio.h. *)
Class Platform : Type := {
  World : Type;
  IOTCLIENT_HANDLE : Type;
  FILE : Type;
  BUFSIZ : Z;
  IOTCLIENT_Receive : IOTCLIENT_HANDLE -> World -> Received * World;
  IOTCLIENT_GetProperty : string -> string -> Z -> Z * string;
  IOTCLIENT_Stream : IOTCLIENT_HANDLE -> string -> Z -> World -> Z * World;
  popen : string -> string -> World -> option FILE * World;
  fileno : FILE -> Z;
  pclose : FILE -> World -> World
}.

Section Program.

Context {P : Platform}.

(** iotexec state *)
Record IOTExecState : Type := mkState {
  hIoTClient : IOTCLIENT_HANDLE;
  verbose : bool
}.

(** *** Observable events *)

(** The text the program prints, by format string. *)
Inductive LogMsg : Type :=
| MsgProcessMessage
| MsgHeaderLength (headerLength : Z)
| MsgHeader (headerLength : Z) (pHeader : option string)
| MsgBody (bodyLength : Z) (pBody : option Buffer)
| MsgMessageId (rxMsgId : string)
| MsgProcessingCommand (cmd : string)
| MsgMessageID (msgId : string)
| MsgError (result : Z).

Inductive Event : Type :=
| EvReceive (h : IOTCLIENT_HANDLE)
| EvGetProperty (header name : string) (cap : Z)
| EvStdout (m : LogMsg)
| EvStderr (m : LogMsg)
| EvPopen (cmd mode : string)
| EvFileno (fp : FILE)
| EvStream (h : IOTCLIENT_HANDLE) (headers : string) (fd : Z)
| EvPclose (fp : FILE).

(** *** The monad: world passing, with the trace of the calls made *)

Definition M (A : Type) : Type := World -> A * World * list Event.

Definition ret {A} (a : A) : M A := fun w => (a, w, []).

Definition bind {A B} (m : M A) (k : A -> M B) : M B :=
  fun w =>
    let '(a, w1, t1) := m w in
    let '(b, w2, t2) := k a w1 in
    (b, w2, (t1 ++ t2)%list).

Definition result_of {A} (r : A * World * list Event) : A := fst (fst r).
Definition world_of {A} (r : A * World * list Event) : World := snd (fst r).
Definition trace_of {A} (r : A * World * list Event) : list Event := snd r.

Definition printf (m : LogMsg) : M unit := fun w => (tt, w, [EvStdout m]).
Definition eprintf (m : LogMsg) : M unit := fun w => (tt, w, [EvStderr m]).
Definition when (b : bool) (m : M unit) : M unit := if b then m else ret tt.

Definition call_Receive (h : IOTCLIENT_HANDLE) : M Received :=
  fun w => let '(rx, w') := IOTCLIENT_Receive h w in (rx, w', [EvReceive h]).

Definition call_GetProperty (header name : string) (cap : Z)
  : M (Z * string) :=
  fun w => (IOTCLIENT_GetProperty header name cap, w,
            [EvGetProperty header name cap]).

Definition call_popen (cmd mode : string) : M (option FILE) :=
  fun w => let '(fp, w') := popen cmd mode w in (fp, w', [EvPopen cmd mode]).

Definition call_fileno (fp : FILE) : M Z :=
  fun w => (fileno fp, w, [EvFileno fp]).

Definition call_Stream (h : IOTCLIENT_HANDLE) (headers : string) (fd : Z)
  : M Z :=
  fun w => let '(r, w') := IOTCLIENT_Stream h headers fd w in
           (r, w', [EvStream h headers fd]).

Definition call_pclose (fp : FILE) : M unit :=
  fun w => (tt, pclose fp w, [EvPclose fp]).

End Program.

Declare Scope io_scope.
Delimit Scope io_scope with io.
Notation "x <- m ;; k" := (bind m (fun x => k))
  (at level 61, m at next level, right associativity) : io_scope.
Notation "' pat <- m ;; k" := (bind m (fun x => match x with pat => k end))
  (at level 61, pat pattern, m at next level, right associativity) : io_scope.
Notation "m ;; k" := (bind m (fun _ => k))
  (at level 61, right associativity) : io_scope.

(** ** The program *)

Section Service.

Context {P : Platform}.

Local Open Scope io_scope.

(** [const char *headers = "source:exec\nmessagetype:cmdresp";] *)
Definition base_headers : string :=
  "source:exec" ++ nl ++ "messagetype:cmdresp".

(** The output of the format ["%s\ncorrelationId:%s\n"] for the
    arguments [headers] and [msgId]. *)
Definition format_correlation (headers msgId : string) : string :=
  headers ++ nl ++ "correlationId:" ++ msgId ++ nl.

(** [ProcessCommand]: process a command and stream the output as a
    device-to-cloud stream.  [cmd] and [msgId] are [None] when NULL. *)
Definition ProcessCommand (pState : option IOTExecState)
           (cmd : option string) (msgId : option string) : M Z :=
  match pState, cmd with
  | Some st, Some cmd =>
      when (verbose st) (printf (MsgProcessingCommand cmd)) ;;
      headers <-
        match msgId with
        | Some msgId =>
            when (verbose st) (printf (MsgMessageID msgId)) ;;
            (* handle correlation identifier: messageId -> correlationId *)
            let '(r, buf) :=
              snprintf BUFSIZ (format_correlation base_headers msgId) in
            let n := to_size_t r in
            if (0 <? n) && (n <? BUFSIZ)
            then ret buf  (* the headers now include the correlation Id *)
            else ret base_headers
        | None => ret base_headers
        end ;;
      (* execute the command *)
      fp <- call_popen cmd "r" ;;
      match fp with
      | Some fp =>
          (* get the file descriptor for the commands stdout *)
          fd <- call_fileno fp ;;
          result <-
            (if negb (fd =? -1)
             then call_Stream (hIoTClient st) headers fd
             else ret EBADF) ;;
          (* close the command output stream *)
          call_pclose fp ;;
          ret result
      | None => ret ENOTSUP
      end
  | _, _ => ret EINVAL
  end.

(** The command [popen] reads at [pBody] once [pBody[bodyLength]] has
    been set to NUL. *)
Definition terminated_body (pBody : Buffer) (bodyLength : Z) : string :=
  let n := Z.to_nat bodyLength in
  read_c_string (store pBody n NUL) 0 n.

(** [ProcessMessage]: wait for and process one cloud-to-device
    message. *)
Definition ProcessMessage (pState : option IOTExecState) : M Z :=
  match pState with
  | Some st =>
      (* wait for a cloud-to-device message *)
      rx <- call_Receive (hIoTClient st) ;;
      let pHeader := rx_pHeader rx in
      let pBody := rx_pBody rx in
      let headerLength := rx_headerLength rx in
      let bodyLength := rx_bodyLength rx in
      result <-
        (if rx_result rx =? EOK then
           printf MsgProcessMessage ;;
           printf (MsgHeaderLength headerLength) ;;
           printf (MsgHeader headerLength pHeader) ;;
           printf (MsgBody bodyLength pBody) ;;
           msgId <-
             match pHeader with
             | Some header =>
                 (* try to get the 'messageID' property *)
                 '(rc, rxMsgId) <-
                   call_GetProperty header "messageId" RXMSGID_SIZE ;;
                 if rc =? EOK
                 then printf (MsgMessageId rxMsgId) ;; ret (Some rxMsgId)
                 else ret None
             | None => ret None
             end ;;
           match pBody,
                 size_add headerLength bodyLength <? MAX_MESSAGE_LENGTH with
           | Some body, true =>
               (* NUL terminate the message body and process the
                  received message as a command *)
               ProcessCommand pState
                              (Some (terminated_body body bodyLength)) msgId
           | _, _ => ret EMSGSIZE
           end
         else ret (rx_result rx)) ;;
      when (verbose st && negb (result =? EOK)) (eprintf (MsgError result)) ;;
      ret result
  | None => ret EINVAL
  end.

(** [ProcessMessages]: [while( true ) { result = ProcessMessage(pState); }].
    The loop has no exit; [fuel] bounds the number of iterations that are
    run, and the outcome is [None] when the function is still in its loop
    after them, [Some result] when it has returned. *)
Fixpoint ProcessMessages_loop (fuel : nat) (pState : option IOTExecState)
  : M (option Z) :=
  match fuel with
  | O => ret None
  | S fuel' =>
      ProcessMessage pState ;;
      ProcessMessages_loop fuel' pState
  end.

Definition ProcessMessages (fuel : nat) (pState : option IOTExecState)
  : M (option Z) :=
  match pState with
  | Some _ => ProcessMessages_loop fuel pState
  | None => ret (Some EINVAL)
  end.

(** *** The pieces of one cycle, without the printing *)

(** The value of [headers] when [ProcessCommand] reaches [popen]. *)
Definition response_headers (msgId : option string) : string :=
  match msgId with
  | Some msgId =>
      let '(r, buf) :=
        snprintf BUFSIZ (format_correlation base_headers msgId) in
      let n := to_size_t r in
      if (0 <? n) && (n <? BUFSIZ) then buf else base_headers
  | None => base_headers
  end.

(** The value of [msgId] when [ProcessMessage] reaches its size test. *)
Definition extracted_msgId (pHeader : option string) : option string :=
  match pHeader with
  | Some header =>
      let '(rc, rxMsgId) :=
        IOTCLIENT_GetProperty header "messageId" RXMSGID_SIZE in
      if rc =? EOK then Some rxMsgId else None
  | None => None
  end.

(** What [ProcessCommand] prints before it reaches [popen]. *)
Definition command_prints (st : IOTExecState) (cmd : string)
           (msgId : option string) : list Event :=
  ((if verbose st then [EvStdout (MsgProcessingCommand cmd)] else [])
   ++ match msgId with
      | Some id => if verbose st then [EvStdout (MsgMessageID id)] else []
      | None => []
      end)%list.

(** What [ProcessMessage] prints after a successful receive. *)
Definition message_prints (rx : Received) : list Event :=
  [EvStdout MsgProcessMessage;
   EvStdout (MsgHeaderLength (rx_headerLength rx));
   EvStdout (MsgHeader (rx_headerLength rx) (rx_pHeader rx));
   EvStdout (MsgBody (rx_bodyLength rx) (rx_pBody rx))].

(** The events of lines 239-251: the property lookup and its print. *)
Definition extraction_trace (pHeader : option string) : list Event :=
  match pHeader with
  | Some header =>
      EvGetProperty header "messageId" RXMSGID_SIZE ::
      match extracted_msgId pHeader with
      | Some id => [EvStdout (MsgMessageId id)]
      | None => []
      end
  | None => []
  end.

(** What [ProcessMessage] prints at its end. *)
Definition error_print (st : IOTExecState) (result : Z) : list Event :=
  if verbose st && negb (result =? EOK)
  then [EvStderr (MsgError result)] else [].

(** The test of lines 253-254: is the message handed to
    [ProcessCommand]? *)
Definition accepted (rx : Received) : bool :=
  match rx_pBody rx with
  | Some _ =>
      size_add (rx_headerLength rx) (rx_bodyLength rx) <? MAX_MESSAGE_LENGTH
  | None => false
  end.

(** *** Reading a trace *)

(** The headers of the [IOTCLIENT_Stream] calls, in order. *)
Fixpoint stream_headers (t : list Event) : list string :=
  match t with
  | [] => []
  | EvStream _ headers _ :: t' => headers :: stream_headers t'
  | _ :: t' => stream_headers t'
  end.

(** The commands of the [popen] calls, in order. *)
Fixpoint popen_cmds (t : list Event) : list string :=
  match t with
  | [] => []
  | EvPopen cmd _ :: t' => cmd :: popen_cmds t'
  | _ :: t' => popen_cmds t'
  end.

(** The headers [IOTCLIENT_GetProperty] was called on, in order. *)
Fixpoint getproperty_calls (t : list Event) : list string :=
  match t with
  | [] => []
  | EvGetProperty header _ _ :: t' => header :: getproperty_calls t'
  | _ :: t' => getproperty_calls t'
  end.

(** The results printed on stderr, in order. *)
Fixpoint reported_errors (t : list Event) : list Z :=
  match t with
  | [] => []
  | EvStderr (MsgError result) :: t' => result :: reported_errors t'
  | _ :: t' => reported_errors t'
  end.

(** The number of [IOTCLIENT_Receive] calls. *)
Fixpoint receive_count (t : list Event) : nat :=
  match t with
  | [] => O
  | EvReceive _ :: t' => S (receive_count t')
  | _ :: t' => receive_count t'
  end.

End Service.

(** ** A concrete platform, to run the program on examples *)

Module Sample.

Record SampleWorld : Type := mkWorld {
  inbox : list Received;           (* messages still to be received *)
  fork_ok : bool;                  (* can a subprocess be started? *)
  stdout_fd : Z;                   (* what fileno gives for a new pipe *)
stream_rc : Z;                   (* what IOTCLIENT_Stream returns *)
  outbox : list (string * Z)       (* what has been streamed: headers, fd *)
}.

Definition EAGAIN : Z := 11.
Definition ENOENT : Z := 2.
Definition E2BIG : Z := 7.

Definition receive (_ : unit) (w : SampleWorld) : Received * SampleWorld :=
  match inbox w with
  | m :: rest =>
    (m, mkWorld rest (fork_ok w) (stdout_fd w) (stream_rc w) (outbox w))
  | [] => (mkReceived EAGAIN None None 0 0, w)
  end.

(** The value of the first [name:value] line of [ls]. *)
Fixpoint lookup_line (name : string) (ls : list string) : option string :=
  match ls with
  | [] => None
  | l :: ls' =>
      if String.prefix (name ++ ":") l
      then Some (substring (S (String.length name))
                           (String.length l - S (String.length name)) l)
      else lookup_line name ls'
  end.

Definition get_property (header name : string) (cap : Z) : Z * string :=
  match lookup_line name (lines header) with
  | Some v => if strlen v <? cap then (EOK, v) else (E2BIG, EmptyString)
  | None => (ENOENT, EmptyString)
  end.

Definition stream (_ : unit) (headers : string) (fd : Z) (w : SampleWorld)
  : Z * SampleWorld :=
  (stream_rc w,
   mkWorld (inbox w) (fork_ok w) (stdout_fd w) (stream_rc w)
           (outbox w ++ [(headers, fd)])).

Definition start (cmd mode : string) (w : SampleWorld)
  : option Z * SampleWorld :=
  if fork_ok w then (Some (stdout_fd w), w) else (None, w).

#[export] Instance platform : Platform := {|
  World := SampleWorld;
  IOTCLIENT_HANDLE := unit;
  FILE := Z;
  BUFSIZ := 8192;
  IOTCLIENT_Receive := receive;
  IOTCLIENT_GetProperty := get_property;
  IOTCLIENT_Stream := stream;
  popen := start;
  fileno := fun fp => fp;
  pclose := fun _ w => w
|}.

Definition st0 : IOTExecState := mkState tt false.
Definition st_verbose : IOTExecState := mkState tt true.

(** A received message with the given header and body texts. *)
Definition message (header : option string) (body : string) : Received :=
  mkReceived EOK header (Some (buffer_of_string body))
             (match header with Some h => strlen h | None => 0 end)
             (strlen body).

Definition world_with (msgs : list Received) : SampleWorld :=
  mkWorld msgs true 3 EOK [].

(** Scenario A: body [echo hello], no header. *)
Definition msg_echo : Received := message None "echo hello".

(** Scenario B: header [messageId:abc123], body [date]. *)
Definition msg_date : Received := message (Some "messageId:abc123") "date".

(** A header without a [messageId] line. *)
Definition msg_no_id : Received := message (Some "source:dev") "echo hello".

(** Scenario D: a header of 10 bytes announced with a body of 4090. *)
Definition msg_big : Received :=
  mkReceived EOK (Some "source:dev") (Some (buffer_of_string "date")) 10 4090.

(** A header of 16 bytes announced with a body of 4090. *)
Definition msg_big_id : Received :=
  mkReceived EOK (Some "messageId:abc123")
             (Some (buffer_of_string "date")) 16 4090.

(** A message whose body pointer is NULL. *)
Definition msg_nobody : Received :=
  mkReceived EOK (Some "messageId:abc123") None 16 0.

(** An identifier of 8200 bytes, longer than the scratch buffer. *)
Definition long_id : string :=
  string_of_list_ascii (repeat "x"%char (Z.to_nat 8200)).

End Sample.

(** ** More ways to read a trace *)

Section Observations.

Context {P : Platform}.

(** Is the event a print on stdout or stderr? *)
Definition is_print (e : Event) : bool :=
  match e with
  | EvStdout _ | EvStderr _ => true
  | _ => false
  end.

(** The calls of external functions, in order, without the prints. *)
Definition external_calls (t : list Event) : list Event :=
  filter (fun e => negb (is_print e)) t.

(** The streams given to [pclose], in order. *)
Definition pclose_calls (t : list Event) : list FILE :=
  flat_map (fun e => match e with EvPclose fp => [fp] | _ => [] end) t.

(** The streams given to [fileno], in order: the streams [popen] gave. *)
Definition fileno_calls (t : list Event) : list FILE :=
  flat_map (fun e => match e with EvFileno fp => [fp] | _ => [] end) t.

(** The handles given to [IOTCLIENT_Receive] and [IOTCLIENT_Stream]. *)
Definition handles_used (t : list Event) : list IOTCLIENT_HANDLE :=
  flat_map (fun e => match e with
                     | EvReceive h | EvStream h _ _ => [h]
                     | _ => []
                     end) t.

(** The external calls [ProcessCommand] makes for a command, given what
    [popen] and [fileno] answer. *)
Definition command_calls (st : IOTExecState) (cmd : string)
           (msgId : option string) (fp : option FILE) : list Event :=
  EvPopen cmd "r" ::
  match fp with
  | Some fp =>
      EvFileno fp ::
      (if fileno fp =? -1 then []
       else [EvStream (hIoTClient st) (response_headers msgId) (fileno fp)])
      ++ [EvPclose fp]
  | None => []
  end.

End Observations.

(** ** Startup: the options, the termination handler and [main] *)

(** The other external functions: [getopt], [sigaction], [syslog] and the
    functions of iotclient that open and close the client.  [getopt] keeps
    its position in the world.  [IOTCLIENT_Create] yields [None] for a
    NULL handle, and [IOTCLIENT_Close] takes one. *)
Class Startup {P : Platform} : Type := {
  getopt : Z -> list string -> string -> World -> Z * World;
  sigaction : Z -> World -> World;
  syslog : Z -> string -> World -> World;
  IOTCLIENT_Create : World -> option IOTCLIENT_HANDLE * World;
  IOTCLIENT_SetVerbose : IOTCLIENT_HANDLE -> bool -> World -> World;
  IOTCLIENT_CreateReceiver :
    IOTCLIENT_HANDLE -> string -> Z -> Z -> World -> Z * World;
  IOTCLIENT_Close : option IOTCLIENT_HANDLE -> World -> World
}.

(** signal.h and syslog.h (Linux) *)
Definition SIGINT : Z := 2.
Definition SIGTERM : Z := 15.
Definition LOG_ERR : Z := 3.

(** The option characters, as [getopt] returns them. *)
Definition opt_v : Z := Z.of_nat (nat_of_ascii "v").
Definition opt_h : Z := Z.of_nat (nat_of_ascii "h").

Section StartupProgram.

Context {P : Platform} {Su : Startup}.

(** The state object as [main] and [ProcessOptions] see it: its handle is
    NULL until [IOTCLIENT_Create] has given one. *)
Record StateObject : Type := mkObject {
  obj_hIoTClient : option IOTCLIENT_HANDLE;
  obj_verbose : bool
}.

(** The events of the whole process: those of the message loop, and the
    calls made around it.  [EvGetopt] records what [getopt] returned. *)
Inductive HostEvent : Type :=
| EvService (e : Event)
| EvGetopt (argC : Z) (argV : list string) (options : string) (c : Z)
| EvUsage (cmdname : string)
| EvSigaction (signum : Z)
| EvSyslog (priority : Z) (text : string)
| EvCreate
| EvSetVerbose (h : IOTCLIENT_HANDLE) (verbose : bool)
| EvCreateReceiver (h : IOTCLIENT_HANDLE) (name : string)
                   (maxPending maxLength : Z)
| EvClose (h : option IOTCLIENT_HANDLE)
| EvExit (status : Z).

Definition H (A : Type) : Type := World -> A * World * list HostEvent.

Definition hret {A} (a : A) : H A := fun w => (a, w, []).

Definition hbind {A B} (m : H A) (k : A -> H B) : H B :=
  fun w =>
    let '(a, w1, t1) := m w in
    let '(b, w2, t2) := k a w1 in
    (b, w2, (t1 ++ t2)%list).

Definition outcome_of {A} (r : A * World * list HostEvent) : A :=
  fst (fst r).
Definition host_world_of {A} (r : A * World * list HostEvent) : World :=
  snd (fst r).
Definition host_trace_of {A} (r : A * World * list HostEvent)
  : list HostEvent := snd r.

(** A computation of the message loop, as part of the process. *)
Definition service {A} (m : M A) : H A :=
  fun w => let '(a, w', t) := m w in (a, w', map EvService t).

Definition call_getopt (argC : Z) (argV : list string) (options : string)
  : H Z :=
  fun w => let '(c, w') := getopt argC argV options w in
           (c, w', [EvGetopt argC argV options c]).

Definition call_sigaction (signum : Z) : H unit :=
  fun w => (tt, sigaction signum w, [EvSigaction signum]).

Definition call_syslog (priority : Z) (text : string) : H unit :=
  fun w => (tt, syslog priority text w, [EvSyslog priority text]).

Definition call_Create : H (option IOTCLIENT_HANDLE) :=
  fun w => let '(h, w') := IOTCLIENT_Create w in (h, w', [EvCreate]).

Definition call_SetVerbose (h : IOTCLIENT_HANDLE) (v : bool) : H unit :=
  fun w => (tt, IOTCLIENT_SetVerbose h v w, [EvSetVerbose h v]).

Definition call_CreateReceiver (h : IOTCLIENT_HANDLE) (name : string)
           (maxPending maxLength : Z) : H Z :=
  fun w => let '(r, w') :=
             IOTCLIENT_CreateReceiver h name maxPending maxLength w in
           (r, w', [EvCreateReceiver h name maxPending maxLength]).

Definition call_Close (h : option IOTCLIENT_HANDLE) : H unit :=
  fun w => (tt, IOTCLIENT_Close h w, [EvClose h]).

Definition call_exit (status : Z) : H Z :=
  fun w => (status, w, [EvExit status]).

End StartupProgram.

Declare Scope host_scope.
Delimit Scope host_scope with host.
Notation "x <- m ;; k" := (hbind m (fun x => k))
  (at level 61, m at next level, right associativity) : host_scope.
Notation "m ;; k" := (hbind m (fun _ => k))
  (at level 61, right associativity) : host_scope.

Section StartupFunctions.

Context {P : Platform} {Su : Startup}.

Local Open Scope host_scope.

(** [usage]: the usage message goes to stderr, unless [cmdname] is
    NULL. *)
Definition usage (cmdname : option string) : H unit :=
  match cmdname with
  | Some cmdname => fun w => (tt, w, [EvUsage cmdname])
  | None => hret tt
  end.

(** The loop of [ProcessOptions]:
    [while( ( c = getopt( argC, argV, options ) ) != -1 ) switch( c ) ...].
    [fuel] bounds the number of [getopt] calls; the outcome is [None] when
    the loop is still running after them. *)
Fixpoint ProcessOptions_loop (fuel : nat) (argC : Z) (argV : list string)
         (state : StateObject) : H (option StateObject) :=
  match fuel with
  | O => hret None
  | S fuel' =>
      c <- call_getopt argC argV "hv" ;;
      if c =? -1 then hret (Some state)
      else if c =? opt_v then
        ProcessOptions_loop fuel' argC argV
                            (mkObject (obj_hIoTClient state) true)
      else if c =? opt_h then
        usage (nth_error argV 0) ;;
        ProcessOptions_loop fuel' argC argV state
      else
        ProcessOptions_loop fuel' argC argV state
  end.

(** [ProcessOptions]: the value returned and the state object after the
    call ([None] when [pState] is NULL). *)
Definition ProcessOptions (fuel : nat) (argC : Z)
           (argV : option (list string)) (pState : option StateObject)
  : H (option (Z * option StateObject)) :=
  match pState, argV with
  | Some state, Some argV =>
      done <- ProcessOptions_loop fuel argC argV state ;;
      match done with
      | Some state' => hret (Some (0, Some state'))
      | None => hret None
      end
  | _, _ => hret (Some (0, pState))
  end.

(** [SetupTerminationHandler]: the handler is registered for [SIGTERM],
    then for [SIGINT]. *)
Definition SetupTerminationHandler : H unit :=
  call_sigaction SIGTERM ;;
  call_sigaction SIGINT.

(** [TerminationHandler], run on the global state object as it is when
    the signal arrives: the process exits with status 1. *)
Definition TerminationHandler (state : StateObject) : H Z :=
  call_syslog LOG_ERR "Abnormal termination of iotexec" ;;
  call_Close (obj_hIoTClient state) ;;
  call_exit 1.

(** [main].  The outcome is [None] when the process is still running
    after [fuel] steps of each of its two loops, [Some result] when [main]
    has returned. *)
Definition main (fuel : nat) (argc : Z) (argv : list string)
  : H (option Z) :=
  let state := mkObject None false in
  let result := EINVAL in
  (* process the command line options *)
  parsed <- ProcessOptions fuel argc (Some argv) (Some state) ;;
  match parsed with
  | Some (_, pState) =>
      let state := match pState with Some s => s | None => state end in
      (* set up an abnormal termination handler *)
      SetupTerminationHandler ;;
      h <- call_Create ;;
      match h with
      | Some h =>
          call_SetVerbose h (obj_verbose state) ;;
          (* create a cloud-to-device message receiver *)
          result <- call_CreateReceiver h "exec" MAX_PENDING_MESSAGES
                                        MAX_MESSAGE_LENGTH ;;
          returned <-
            (if result =? EOK
             then
               r <- service (ProcessMessages
                               fuel (Some (mkState h (obj_verbose state)))) ;;
               hret (match r with Some _ => true | None => false end)
             else hret true) ;;
          if (returned : bool)
          then call_Close (Some h) ;; hret (Some result)
          else hret None
      | None => hret (Some result)
      end
  | None => hret None
  end.

(** *** Reading the trace of the process *)

(** What the [getopt] calls returned, in order. *)
Definition getopt_results (t : list HostEvent) : list Z :=
  flat_map (fun e => match e with EvGetopt _ _ _ c => [c] | _ => [] end) t.

(** The command names the usage message was printed for. *)
Definition usage_prints (t : list HostEvent) : list string :=
  flat_map (fun e => match e with EvUsage c => [c] | _ => [] end) t.

(** The events of the message loop. *)
Definition service_events (t : list HostEvent) : list Event :=
  flat_map (fun e => match e with EvService e => [e] | _ => [] end) t.

(** The handles given to [IOTCLIENT_Close]. *)
Definition close_calls (t : list HostEvent)
  : list (option IOTCLIENT_HANDLE) :=
  flat_map (fun e => match e with EvClose h => [h] | _ => [] end) t.

(** Does [getopt] return -1 within [n] + 1 calls, from the world [w]? *)
Fixpoint getopt_ends (n : nat) (argC : Z) (argV : list string) (w : World)
  : bool :=
  let '(c, w') := getopt argC argV "hv" w in
  if c =? -1 then true
  else match n with
       | O => false
       | S n' => getopt_ends n' argC argV w'
       end.

(** The first steps of [main]: the options, read into the zeroed state
    object, then the two [sigaction] calls. *)
Definition options_run (fuel : nat) (argc : Z) (argv : list string)
  : H (option (Z * option StateObject)) :=
  ProcessOptions fuel argc (Some argv) (Some (mkObject None false)).

Definition parsed_verbose (fuel : nat) (argc : Z) (argv : list string)
           (w : World) : bool :=
  match outcome_of (options_run fuel argc argv w) with
  | Some (_, Some state) => obj_verbose state
  | _ => false
  end.

Definition setup_world (fuel : nat) (argc : Z) (argv : list string)
           (w : World) : World :=
  sigaction SIGINT
    (sigaction SIGTERM (host_world_of (options_run fuel argc argv w))).

Definition setup_trace (fuel : nat) (argc : Z) (argv : list string)
           (w : World) : list HostEvent :=
  (host_trace_of (options_run fuel argc argv w)
   ++ [EvSigaction SIGTERM; EvSigaction SIGINT])%list.

(** The calls [main] makes once it has a handle [h], up to the receiver. *)
Definition client_setup_trace (h : IOTCLIENT_HANDLE) (v : bool)
  : list HostEvent :=
  [EvCreate; EvSetVerbose h v;
   EvCreateReceiver h "exec" MAX_PENDING_MESSAGES MAX_MESSAGE_LENGTH].

End StartupFunctions.

(** ** A concrete host, to run [main] on examples *)

Module Host.

Record HostWorld : Type := mkHost {
  core : Sample.SampleWorld;    (* the world of the message loop *)
  options_left : list Z;        (* what getopt returns next, then -1 *)
  client_ok : bool;             (* does IOTCLIENT_Create give a handle? *)
  receiver_rc : Z;              (* what IOTCLIENT_CreateReceiver returns *)
  closed : nat                  (* the number of IOTCLIENT_Close calls *)
}.

Definition with_core (w : HostWorld) (c : Sample.SampleWorld) : HostWorld :=
  mkHost c (options_left w) (client_ok w) (receiver_rc w) (closed w).

#[export] Instance platform : Platform := {|
  World := HostWorld;
  IOTCLIENT_HANDLE := unit;
  FILE := Z;
  BUFSIZ := 8192;
  IOTCLIENT_Receive := fun h w =>
    let '(m, c) := Sample.receive h (core w) in (m, with_core w c);
  IOTCLIENT_GetProperty := Sample.get_property;
  IOTCLIENT_Stream := fun h headers fd w =>
    let '(r, c) := Sample.stream h headers fd (core w) in (r, with_core w c);
  popen := fun cmd mode w =>
    let '(fp, c) := Sample.start cmd mode (core w) in (fp, with_core w c);
  fileno := fun fp => fp;
  pclose := fun _ w => w
|}.

Definition next_option (w : HostWorld) : Z * HostWorld :=
  match options_left w with
  | c :: rest =>
      (c, mkHost (core w) rest (client_ok w) (receiver_rc w) (closed w))
  | [] => (-1, w)
  end.

#[export] Instance startup : Startup := {|
  getopt := fun _ _ _ w => next_option w;
  sigaction := fun _ w => w;
  syslog := fun _ _ w => w;
  IOTCLIENT_Create := fun w =>
    (if client_ok w then Some tt else None, w);
  IOTCLIENT_SetVerbose := fun _ _ w => w;
  IOTCLIENT_CreateReceiver := fun _ _ _ _ w => (receiver_rc w, w);
  IOTCLIENT_Close := fun _ w =>
    mkHost (core w) (options_left w) (client_ok w) (receiver_rc w)
           (S (closed w))
|}.

(** The host started as [iotexec -v -h]: [getopt] gives [v], [h], then
    -1. *)
Definition host (msgs : list Received) (client : bool) (rc : Z) : HostWorld :=
  mkHost (Sample.world_with msgs) [opt_v; opt_h] client rc O.

Definition argv : list string := ["iotexec"; "-v"; "-h"].

End Host.

(** * Properties *)

(** ** Strings and buffers *)

Module StringFacts.

Lemma length_append (s1 s2 : string) :
  String.length (s1 ++ s2) = (String.length s1 + String.length s2)%nat.
Proof.
  induction s1 as [|c s1 IH]; simpl; [reflexivity | now rewrite IH].
Qed.

Lemma append_assoc (s1 s2 s3 : string) :
  (s1 ++ s2) ++ s3 = s1 ++ s2 ++ s3.
Proof.
  induction s1 as [|c s1 IH]; simpl; [reflexivity | now rewrite IH].
Qed.

Lemma strlen_append (s1 s2 : string) :
  strlen (s1 ++ s2) = strlen s1 + strlen s2.
Proof. unfold strlen. rewrite length_append. lia. Qed.

Lemma strlen_nonneg (s : string) : 0 <= strlen s.
Proof. unfold strlen. lia. Qed.

Lemma substring_whole (s : string) (n : nat) :
  (String.length s <= n)%nat -> substring 0 n s = s.
Proof.
  revert n. induction s as [|c s IH]; intros n Hn.
  - destruct n; reflexivity.
  - destruct n as [|n]; simpl in *; [lia|].
    rewrite IH by lia. reflexivity.
Qed.

Lemma append_cancel_l (a x y : string) : a ++ x = a ++ y -> x = y.
Proof.
  induction a as [|c a IH]; simpl; intros H; [exact H|].
  injection H as H. auto.
Qed.

Lemma append_cancel_r (x y c : string) : x ++ c = y ++ c -> x = y.
Proof.
  revert y. induction x as [|a x IH]; intros [|b y] H; simpl in H.
  - reflexivity.
  - apply (f_equal String.length) in H. simpl in H.
    rewrite length_append in H. lia.
  - apply (f_equal String.length) in H. simpl in H.
    rewrite length_append in H. lia.
  - injection H as Hab H. subst b. f_equal. auto.
Qed.

(** Storing a NUL at [n] makes the C string end there at the latest:
    looking at more than [n] bytes changes nothing. *)
Lemma read_c_string_terminated (p : Buffer) (n from k extra : nat) :
  (from + k = n)%nat ->
  read_c_string (store p n NUL) from (k + extra)
  = read_c_string (store p n NUL) from k.
Proof.
  revert from. induction k as [|k IH]; intros from Hn; simpl.
  - destruct extra as [|extra]; simpl; [reflexivity|].
    unfold store at 1. replace from with n by lia.
    rewrite Nat.eqb_refl. reflexivity.
  - destruct (Ascii.eqb (store p n NUL from) NUL); [reflexivity|].
    rewrite IH by lia. reflexivity.
Qed.

Lemma read_c_string_length (p : Buffer) (from fuel : nat) :
  (String.length (read_c_string p from fuel) <= fuel)%nat.
Proof.
  revert from. induction fuel as [|k IH]; intros from; simpl; [lia|].
  destruct (Ascii.eqb (p from) NUL); simpl; [lia|].
  specialize (IH (S from)). lia.
Qed.

(** The command has at most [bodyLength] bytes. *)
Lemma terminated_body_length (pBody : Buffer) (bodyLength : Z) :
  0 <= bodyLength -> strlen (terminated_body pBody bodyLength) <= bodyLength.
Proof.
  intros Hpos. unfold terminated_body, strlen.
  pose proof (read_c_string_length (store pBody (Z.to_nat bodyLength) NUL)
                                   0 (Z.to_nat bodyLength)).
  lia.
Qed.

(** The command is the whole C string at [pBody] once the NUL is
    stored: reading further finds nothing more. *)
Lemma terminated_body_complete (pBody : Buffer) (bodyLength : Z)
      (extra : nat) :
  read_c_string (store pBody (Z.to_nat bodyLength) NUL) 0
                (Z.to_nat bodyLength + extra)
  = terminated_body pBody bodyLength.
Proof. apply read_c_string_terminated. reflexivity. Qed.

End StringFacts.


(** ** Traces and the shape of one cycle *)

Section CycleFacts.

Context {P : Platform}.

Lemma stream_headers_app (t1 t2 : list Event) :
  stream_headers (t1 ++ t2) = (stream_headers t1 ++ stream_headers t2)%list.
Proof.
  induction t1 as [|e t1 IH]; simpl; [reflexivity|].
  destruct e; simpl; rewrite IH; reflexivity.
Qed.

Lemma popen_cmds_app (t1 t2 : list Event) :
  popen_cmds (t1 ++ t2) = (popen_cmds t1 ++ popen_cmds t2)%list.
Proof.
  induction t1 as [|e t1 IH]; simpl; [reflexivity|].
  destruct e; simpl; rewrite IH; reflexivity.
Qed.

Lemma getproperty_calls_app (t1 t2 : list Event) :
  getproperty_calls (t1 ++ t2)
  = (getproperty_calls t1 ++ getproperty_calls t2)%list.
Proof.
  induction t1 as [|e t1 IH]; simpl; [reflexivity|].
  destruct e; simpl; rewrite IH; reflexivity.
Qed.

Lemma receive_count_app (t1 t2 : list Event) :
  receive_count (t1 ++ t2) = (receive_count t1 + receive_count t2)%nat.
Proof.
  induction t1 as [|e t1 IH]; simpl; [reflexivity|].
  destruct e; simpl; rewrite IH; reflexivity.
Qed.

(** [ProcessCommand] on non-NULL arguments, one case per exit path. *)
Lemma ProcessCommand_run (st : IOTExecState) (cmd : string)
      (msgId : option string) (w : World) :
  ProcessCommand (Some st) (Some cmd) msgId w =
  match popen cmd "r" w with
  | (Some fp, w1) =>
      if fileno fp =? -1
      then (EBADF, pclose fp w1,
            (command_prints st cmd msgId
             ++ [EvPopen cmd "r"; EvFileno fp; EvPclose fp])%list)
      else
        let '(r, w2) :=
          IOTCLIENT_Stream (hIoTClient st) (response_headers msgId)
                           (fileno fp) w1 in
        (r, pclose fp w2,
         (command_prints st cmd msgId
          ++ [EvPopen cmd "r"; EvFileno fp;
              EvStream (hIoTClient st) (response_headers msgId) (fileno fp);
              EvPclose fp])%list)
  | (None, w1) =>
      (ENOTSUP, w1, (command_prints st cmd msgId ++ [EvPopen cmd "r"])%list)
  end.
Proof.
  unfold ProcessCommand, command_prints, response_headers, bind, when,
    printf, ret, call_popen, call_fileno, call_Stream, call_pclose.
  destruct (verbose st); destruct msgId as [id|];
    try destruct (snprintf BUFSIZ (format_correlation base_headers id))
      as [r buf];
    try destruct ((0 <? to_size_t r) && (to_size_t r <? BUFSIZ));
    destruct (popen cmd "r" w) as [[fp|] w1]; try reflexivity;
    destruct (fileno fp =? -1); try reflexivity;
    cbn [negb];
    destruct (IOTCLIENT_Stream _ _ _ w1) as [r' w2]; reflexivity.
Qed.

(** [ProcessMessage] on a non-NULL state, one case per exit path. *)
Lemma ProcessMessage_run (st : IOTExecState) (w : World) :
  ProcessMessage (Some st) w =
  let '(rx, w1) := IOTCLIENT_Receive (hIoTClient st) w in
  if rx_result rx =? EOK then
    let pre := (EvReceive (hIoTClient st) :: message_prints rx
                ++ extraction_trace (rx_pHeader rx))%list in
    match rx_pBody rx,
          size_add (rx_headerLength rx) (rx_bodyLength rx)
          <? MAX_MESSAGE_LENGTH with
    | Some body, true =>
        let '(r, w2, t) :=
          ProcessCommand (Some st)
                         (Some (terminated_body body (rx_bodyLength rx)))
                         (extracted_msgId (rx_pHeader rx)) w1 in
        (r, w2, (pre ++ t ++ error_print st r)%list)
    | _, _ => (EMSGSIZE, w1, (pre ++ error_print st EMSGSIZE)%list)
    end
  else (rx_result rx, w1,
        EvReceive (hIoTClient st) :: error_print st (rx_result rx)).
Proof.
  unfold ProcessMessage, bind, call_Receive.
  destruct (IOTCLIENT_Receive (hIoTClient st) w) as [rx w1].
  destruct (rx_result rx =? EOK) eqn:Hres.
  - unfold extraction_trace, extracted_msgId, message_prints, error_print,
      when, eprintf, printf, ret, call_GetProperty.
    destruct (rx_pHeader rx) as [header|];
      [destruct (IOTCLIENT_GetProperty header "messageId" RXMSGID_SIZE)
         as [rc id]; destruct (rc =? EOK)|];
      (destruct (rx_pBody rx) as [body|];
       [destruct (size_add (rx_headerLength rx) (rx_bodyLength rx)
                  <? MAX_MESSAGE_LENGTH)|]);
      try (destruct (ProcessCommand _ _ _ w1) as [[r w2] t];
           destruct (verbose st && negb (r =? EOK));
           cbn [app]; rewrite ?app_nil_r; reflexivity);
      destruct (verbose st); reflexivity.
  - unfold error_print, when, eprintf, ret.
    destruct (verbose st && negb (rx_result rx =? EOK)); reflexivity.
Qed.

End CycleFacts.

(** ** The response headers *)

Section HeaderFacts.

Context {P : Platform}.
Import StringFacts.

Lemma strlen_base_headers : strlen base_headers = 31.
Proof. reflexivity. Qed.

Lemma strlen_format_correlation (id : string) :
  strlen (format_correlation base_headers id) = 47 + strlen id.
Proof.
  unfold format_correlation. rewrite !strlen_append, strlen_base_headers.
  change (strlen nl) with 1. change (strlen "correlationId:") with 14. lia.
Qed.

Lemma to_size_t_small (z : Z) : 0 <= z <= INT_MAX -> to_size_t z = z.
Proof.
  intros Hz. unfold to_size_t. apply Z.mod_small.
  unfold INT_MAX, SIZE_MODULUS in *. lia.
Qed.

Lemma response_headers_none : response_headers None = base_headers.
Proof. reflexivity. Qed.

(** The identifier fits: [snprintf] reports fewer than [BUFSIZ] bytes
    and the scratch buffer holds the whole text. *)
Lemma response_headers_fits (id : string) :
  47 + strlen id < BUFSIZ ->
  47 + strlen id <= INT_MAX ->
  response_headers (Some id) = format_correlation base_headers id.
Proof.
  intros Hfit Hint. unfold response_headers, snprintf.
  rewrite strlen_format_correlation.
  pose proof (strlen_nonneg id) as Hpos.
  replace (47 + strlen id <=? INT_MAX) with true
    by (symmetry; apply Z.leb_le; exact Hint).
  rewrite to_size_t_small by lia.
  replace (0 <? 47 + strlen id) with true by (symmetry; apply Z.ltb_lt; lia).
  replace (47 + strlen id <? BUFSIZ) with true
    by (symmetry; apply Z.ltb_lt; exact Hfit).
  cbn [andb]. apply substring_whole.
  pose proof (strlen_format_correlation id) as Hlen. unfold strlen in Hlen.
  unfold strlen in Hfit. lia.
Qed.

(** The identifier does not fit: the headers stay the base headers. *)
Lemma response_headers_overflow (id : string) :
  BUFSIZ <= INT_MAX ->
  BUFSIZ <= 47 + strlen id ->
  response_headers (Some id) = base_headers.
Proof.
  intros Hmax Hbig. unfold response_headers, snprintf.
  rewrite strlen_format_correlation.
  pose proof (strlen_nonneg id) as Hpos.
  destruct (47 + strlen id <=? INT_MAX) eqn:Hint.
  - apply Z.leb_le in Hint. rewrite to_size_t_small by lia.
    replace (47 + strlen id <? BUFSIZ) with false
      by (symmetry; apply Z.ltb_ge; exact Hbig).
    rewrite andb_false_r. reflexivity.
  - replace (to_size_t (-1) <? BUFSIZ) with false.
    + rewrite andb_false_r. reflexivity.
    + symmetry. apply Z.ltb_ge.
      change (to_size_t (-1)) with (2 ^ 64 - 1).
      unfold INT_MAX in Hmax. lia.
Qed.

(** Whatever the identifier, the headers are the base headers or the
    base headers with its correlation line. *)
Lemma response_headers_cases (id : string) :
  BUFSIZ <= INT_MAX ->
  response_headers (Some id) = base_headers
  \/ response_headers (Some id) = format_correlation base_headers id.
Proof.
  intros Hmax. destruct (Z_lt_le_dec (47 + strlen id) BUFSIZ) as [Hfit|Hbig].
  - right. apply response_headers_fits; lia.
  - left. apply response_headers_overflow; assumption.
Qed.

Lemma format_correlation_inj (h id1 id2 : string) :
  format_correlation h id1 = format_correlation h id2 -> id1 = id2.
Proof.
  unfold format_correlation. intros H.
  do 3 apply append_cancel_l in H.
  apply append_cancel_r in H. exact H.
Qed.

Lemma format_correlation_not_base (id : string) :
  format_correlation base_headers id <> base_headers.
Proof.
  intros H. apply (f_equal strlen) in H.
  rewrite strlen_format_correlation, strlen_base_headers in H.
  pose proof (strlen_nonneg id). lia.
Qed.

Lemma ends_with_newline_append_nl (s : string) :
  ends_with_newline (s ++ nl) = true.
Proof.
  induction s as [|c s IH]; [reflexivity|].
  cbn [append ends_with_newline]. rewrite IH.
  destruct (s ++ nl) eqn:Hs; [|reflexivity].
  destruct s; discriminate.
Qed.

Lemma ends_with_newline_format (h id : string) :
  ends_with_newline (format_correlation h id) = true.
Proof.
  unfold format_correlation. rewrite <- !append_assoc.
  apply ends_with_newline_append_nl.
Qed.

Lemma has_line_format (h id : string) :
  has_line ("correlationId:" ++ id) (format_correlation h id).
Proof.
  exists (h ++ nl), nl. repeat split.
  - unfold format_correlation. rewrite <- !append_assoc. reflexivity.
  - right. exists h. reflexivity.
  - right. exists EmptyString. reflexivity.
Qed.

End HeaderFacts.

(** ** What a cycle calls *)

Section CallFacts.

Context {P : Platform}.

Lemma command_prints_quiet (st : IOTExecState) (cmd : string)
      (msgId : option string) :
  stream_headers (command_prints st cmd msgId) = []
  /\ popen_cmds (command_prints st cmd msgId) = []
  /\ getproperty_calls (command_prints st cmd msgId) = []
  /\ receive_count (command_prints st cmd msgId) = O.
Proof.
  unfold command_prints.
  destruct (verbose st); destruct msgId; repeat split; reflexivity.
Qed.

Lemma message_prints_quiet (rx : Received) :
  stream_headers (message_prints rx) = []
  /\ popen_cmds (message_prints rx) = []
  /\ getproperty_calls (message_prints rx) = []
  /\ receive_count (message_prints rx) = O.
Proof. repeat split; reflexivity. Qed.

Lemma extraction_trace_quiet (pHeader : option string) :
  stream_headers (extraction_trace pHeader) = []
  /\ popen_cmds (extraction_trace pHeader) = []
  /\ receive_count (extraction_trace pHeader) = O.
Proof.
  unfold extraction_trace.
  destruct pHeader; [destruct (extracted_msgId _)|]; repeat split;
    reflexivity.
Qed.

Lemma error_print_quiet (st : IOTExecState) (result : Z) :
  stream_headers (error_print st result) = []
  /\ popen_cmds (error_print st result) = []
  /\ getproperty_calls (error_print st result) = []
  /\ receive_count (error_print st result) = O.
Proof.
  unfold error_print.
  destruct (verbose st && negb (result =? EOK)); repeat split; reflexivity.
Qed.

(** The [IOTCLIENT_Stream] calls of [ProcessCommand]: one, with the
    selected headers, when the command was started and its descriptor
    obtained; none otherwise. *)
Lemma ProcessCommand_stream_headers (st : IOTExecState) (cmd : string)
      (msgId : option string) (w : World) :
  stream_headers (trace_of (ProcessCommand (Some st) (Some cmd) msgId w)) =
  match fst (popen cmd "r" w) with
  | Some fp => if fileno fp =? -1 then [] else [response_headers msgId]
  | None => []
  end.
Proof.
  rewrite ProcessCommand_run.
  destruct (command_prints_quiet st cmd msgId) as (Hs & _).
  destruct (popen cmd "r" w) as [[fp|] w1]; cbn [fst].
  - destruct (fileno fp =? -1).
    + unfold trace_of; cbn [snd]. rewrite stream_headers_app, Hs.
      reflexivity.
    + destruct (IOTCLIENT_Stream _ _ _ w1) as [r w2].
      unfold trace_of; cbn [snd]. rewrite stream_headers_app, Hs.
      reflexivity.
  - unfold trace_of; cbn [snd]. rewrite stream_headers_app, Hs.
    reflexivity.
Qed.

(** [ProcessCommand] calls [popen] once, on its command. *)
Lemma ProcessCommand_popen_cmds (st : IOTExecState) (cmd : string)
      (msgId : option string) (w : World) :
  popen_cmds (trace_of (ProcessCommand (Some st) (Some cmd) msgId w))
  = [cmd].
Proof.
  rewrite ProcessCommand_run.
  destruct (command_prints_quiet st cmd msgId) as (_ & Hp & _).
  destruct (popen cmd "r" w) as [[fp|] w1];
    [destruct (fileno fp =? -1);
     [|destruct (IOTCLIENT_Stream _ _ _ w1) as [r w2]]|];
    unfold trace_of; cbn [snd]; rewrite popen_cmds_app, Hp; reflexivity.
Qed.

Lemma ProcessCommand_no_receive (st : IOTExecState) (cmd : string)
      (msgId : option string) (w : World) :
  receive_count (trace_of (ProcessCommand (Some st) (Some cmd) msgId w)) = O
  /\ getproperty_calls
       (trace_of (ProcessCommand (Some st) (Some cmd) msgId w)) = [].
Proof.
  rewrite ProcessCommand_run.
  destruct (command_prints_quiet st cmd msgId) as (_ & _ & Hg & Hr).
  destruct (popen cmd "r" w) as [[fp|] w1];
    [destruct (fileno fp =? -1);
     [|destruct (IOTCLIENT_Stream _ _ _ w1) as [r w2]]|];
    unfold trace_of; cbn [snd];
    rewrite receive_count_app, getproperty_calls_app, Hg, Hr;
    split; reflexivity.
Qed.

(** A message that is received but not accepted: the cycle ends with
    [EMSGSIZE] after the prints and the property lookup. *)
Lemma ProcessMessage_rejected (st : IOTExecState) (w : World) :
  let rx := fst (IOTCLIENT_Receive (hIoTClient st) w) in
  rx_result rx = EOK ->
  accepted rx = false ->
  ProcessMessage (Some st) w =
  (EMSGSIZE, snd (IOTCLIENT_Receive (hIoTClient st) w),
   (EvReceive (hIoTClient st) :: message_prints rx
    ++ extraction_trace (rx_pHeader rx)
    ++ error_print st EMSGSIZE)%list).
Proof.
  cbv zeta. rewrite ProcessMessage_run. unfold accepted.
  destruct (IOTCLIENT_Receive (hIoTClient st) w) as [rx w1]; cbn [fst snd].
  intros Hres Hacc. rewrite Hres. change (EOK =? EOK) with true. cbv iota.
  destruct (rx_pBody rx) as [body|].
  - rewrite Hacc. cbv zeta. rewrite <- app_comm_cons, <- app_assoc.
    reflexivity.
  - cbv zeta. rewrite <- app_comm_cons, <- app_assoc. reflexivity.
Qed.

(** A message that is received and accepted: the cycle is the prints,
    the property lookup, then [ProcessCommand] on the terminated body. *)
Lemma ProcessMessage_accepted (st : IOTExecState) (w : World)
      (body : Buffer) :
  let rx := fst (IOTCLIENT_Receive (hIoTClient st) w) in
  let w1 := snd (IOTCLIENT_Receive (hIoTClient st) w) in
  let run := ProcessCommand (Some st)
               (Some (terminated_body body (rx_bodyLength rx)))
               (extracted_msgId (rx_pHeader rx)) w1 in
  rx_result rx = EOK ->
  rx_pBody rx = Some body ->
  accepted rx = true ->
  ProcessMessage (Some st) w =
  (result_of run, world_of run,
   (EvReceive (hIoTClient st) :: message_prints rx
    ++ extraction_trace (rx_pHeader rx)
    ++ trace_of run ++ error_print st (result_of run))%list).
Proof.
  cbv zeta. rewrite ProcessMessage_run. unfold accepted.
  destruct (IOTCLIENT_Receive (hIoTClient st) w) as [rx w1]; cbn [fst snd].
  intros Hres Hbody Hacc. rewrite Hres. change (EOK =? EOK) with true.
  cbv iota. rewrite Hbody in *. rewrite Hacc. cbv zeta.
  destruct (ProcessCommand _ _ _ w1) as [[r w2] t].
  unfold result_of, world_of, trace_of; cbn [fst snd].
  rewrite <- app_comm_cons, <- app_assoc. reflexivity.
Qed.

(** A failed receive: the cycle ends with the transport's result. *)
Lemma ProcessMessage_receive_failed (st : IOTExecState) (w : World) :
  let rx := fst (IOTCLIENT_Receive (hIoTClient st) w) in
  rx_result rx <> EOK ->
  ProcessMessage (Some st) w =
  (rx_result rx, snd (IOTCLIENT_Receive (hIoTClient st) w),
   EvReceive (hIoTClient st) :: error_print st (rx_result rx)).
Proof.
  cbv zeta. rewrite ProcessMessage_run.
  destruct (IOTCLIENT_Receive (hIoTClient st) w) as [rx w1]; cbn [fst snd].
  intros Hres. apply Z.eqb_neq in Hres. rewrite Hres. reflexivity.
Qed.

End CallFacts.

(** ** The dispatch cycle: rejected messages and failed launches *)

Section Rejection.

Context {P : Platform}.

Lemma rejected_calls_nothing (st : IOTExecState) (w : World) :
  let rx := fst (IOTCLIENT_Receive (hIoTClient st) w) in
  let run := ProcessMessage (Some st) w in
  rx_result rx = EOK ->
  accepted rx = false ->
  result_of run = EMSGSIZE
  /\ popen_cmds (trace_of run) = []
  /\ stream_headers (trace_of run) = [].
Proof.
  cbv zeta. intros Hres Hacc.
  rewrite (ProcessMessage_rejected st w Hres Hacc).
  unfold result_of, trace_of; cbn [fst snd].
  destruct (message_prints_quiet (fst (IOTCLIENT_Receive (hIoTClient st) w)))
    as (Hs1 & Hp1 & _).
  destruct (extraction_trace_quiet
              (rx_pHeader (fst (IOTCLIENT_Receive (hIoTClient st) w))))
    as (Hs2 & Hp2 & _).
  destruct (error_print_quiet st EMSGSIZE) as (Hs3 & Hp3 & _).
  repeat split.
  - cbn [popen_cmds]. rewrite !popen_cmds_app, Hp1, Hp2, Hp3. reflexivity.
  - cbn [stream_headers].
    rewrite !stream_headers_app, Hs1, Hs2, Hs3. reflexivity.
Qed.

(** C1.  A received message whose lengths add up, as the program adds
    them, to [MAX_MESSAGE_LENGTH] or more is never executed: the cycle
    calls neither [popen] nor [IOTCLIENT_Stream] and its result is
    [EMSGSIZE]. *)
Theorem C1_oversized_message_is_rejected (st : IOTExecState) (w : World) :
  let rx := fst (IOTCLIENT_Receive (hIoTClient st) w) in
  let run := ProcessMessage (Some st) w in
  rx_result rx = EOK ->
  MAX_MESSAGE_LENGTH <= size_add (rx_headerLength rx) (rx_bodyLength rx) ->
  result_of run = EMSGSIZE
  /\ popen_cmds (trace_of run) = []
  /\ stream_headers (trace_of run) = [].
Proof.
  cbv zeta. intros Hres Hbig.
  apply rejected_calls_nothing; [exact Hres|].
  unfold accepted. destruct (rx_pBody _); [|reflexivity].
  apply Z.ltb_ge. exact Hbig.
Qed.

(** For lengths whose sum is below 2^64 the program's sum is the
    arithmetic one, so the bound of C1 is the bound on the real sizes. *)
Lemma size_add_exact (a b : Z) :
  0 <= a -> 0 <= b -> a + b < SIZE_MODULUS -> size_add a b = a + b.
Proof.
  intros Ha Hb Hsum. unfold size_add, to_size_t. apply Z.mod_small. lia.
Qed.

(** Beyond that range the program's sum differs from the arithmetic one;
    no two buffers of one address space have such lengths. *)
Remark size_add_wraps : size_add (2 ^ 64 - 1) 2 = 1.
Proof. reflexivity. Qed.

Lemma oversized_message_is_rejected_exact (st : IOTExecState) (w : World) :
  let rx := fst (IOTCLIENT_Receive (hIoTClient st) w) in
  let run := ProcessMessage (Some st) w in
  rx_result rx = EOK ->
  0 <= rx_headerLength rx -> 0 <= rx_bodyLength rx ->
  rx_headerLength rx + rx_bodyLength rx < SIZE_MODULUS ->
  MAX_MESSAGE_LENGTH <= rx_headerLength rx + rx_bodyLength rx ->
  result_of run = EMSGSIZE
  /\ popen_cmds (trace_of run) = []
  /\ stream_headers (trace_of run) = [].
Proof.
  cbv zeta. intros Hres Hh Hb Hsum Hbig.
  apply rejected_calls_nothing; [exact Hres|].
  unfold accepted. destruct (rx_pBody _); [|reflexivity].
  apply Z.ltb_ge. rewrite size_add_exact by assumption. exact Hbig.
Qed.

(** C10.  A successful receive that leaves the body pointer NULL gives
    [EMSGSIZE], which is not [EINVAL], and no command is executed,
    whatever the two lengths are. *)
Theorem C10_null_body_is_message_too_large (st : IOTExecState) (w : World) :
  let rx := fst (IOTCLIENT_Receive (hIoTClient st) w) in
  let run := ProcessMessage (Some st) w in
  rx_result rx = EOK ->
  rx_pBody rx = None ->
  result_of run = EMSGSIZE
  /\ result_of run <> EINVAL
  /\ popen_cmds (trace_of run) = []
  /\ stream_headers (trace_of run) = [].
Proof.
  cbv zeta. intros Hres Hbody.
  destruct (rejected_calls_nothing st w Hres) as (Hr & Hp & Hs).
  - unfold accepted. rewrite Hbody. reflexivity.
  - rewrite Hr. repeat split; try assumption. discriminate.
Qed.

(** C5.  When [popen] gives no stream for the command, [ProcessCommand]
    returns [ENOTSUP] and never calls [IOTCLIENT_Stream]. *)
Theorem C5_launch_failure_is_not_supported (st : IOTExecState)
        (cmd : string) (msgId : option string) (w : World) :
  let run := ProcessCommand (Some st) (Some cmd) msgId w in
  fst (popen cmd "r" w) = None ->
  result_of run = ENOTSUP /\ stream_headers (trace_of run) = [].
Proof.
  cbv zeta. intros Hpopen. split.
  - rewrite ProcessCommand_run.
    destruct (popen cmd "r" w) as [[fp|] w1]; cbn [fst] in Hpopen;
      [discriminate|]. reflexivity.
  - rewrite ProcessCommand_stream_headers, Hpopen. reflexivity.
Qed.

End Rejection.

Lemma C1_oversized_message_is_rejected_witness :
  let w := Sample.world_with [Sample.msg_big] in
  let run := ProcessMessage (Some Sample.st_verbose) w in
  MAX_MESSAGE_LENGTH <= size_add 10 4090
  /\ result_of run = EMSGSIZE
  /\ popen_cmds (trace_of run) = []
  /\ stream_headers (trace_of run) = [].
Proof.
  cbv zeta. split.
  - vm_compute. discriminate.
  - apply (C1_oversized_message_is_rejected
             Sample.st_verbose (Sample.world_with [Sample.msg_big])).
    + reflexivity.
    + vm_compute. discriminate.
Defined.

Lemma C10_null_body_is_message_too_large_witness :
  let w := Sample.world_with [Sample.msg_nobody] in
  let run := ProcessMessage (Some Sample.st_verbose) w in
  size_add 16 0 < MAX_MESSAGE_LENGTH
  /\ result_of run = EMSGSIZE
  /\ result_of run <> EINVAL
  /\ popen_cmds (trace_of run) = []
  /\ stream_headers (trace_of run) = [].
Proof.
  cbv zeta. split.
  - reflexivity.
  - apply (C10_null_body_is_message_too_large
             Sample.st_verbose (Sample.world_with [Sample.msg_nobody]));
      reflexivity.
Defined.

Lemma C5_launch_failure_is_not_supported_witness :
  let w := Sample.mkWorld [] false 3 EOK [] in
  let run := ProcessCommand (Some Sample.st0) (Some "date") (Some "abc123") w in
  result_of run = ENOTSUP /\ stream_headers (trace_of run) = [].
Proof.
  apply (C5_launch_failure_is_not_supported
           Sample.st0 "date" (Some "abc123")
           (Sample.mkWorld [] false 3 EOK [])).
  reflexivity.
Defined.

(** ** The headers of the reply *)

Section ReplyHeaders.

Context {P : Platform}.
Import StringFacts.

(** A cycle calls [IOTCLIENT_Stream] at most once, and then with the
    headers selected from the identifier found in its own header. *)
Lemma ProcessMessage_stream_headers (st : IOTExecState) (w : World) :
  let rx := fst (IOTCLIENT_Receive (hIoTClient st) w) in
  let t := trace_of (ProcessMessage (Some st) w) in
  stream_headers t = []
  \/ stream_headers t = [response_headers (extracted_msgId (rx_pHeader rx))].
Proof.
  cbv zeta.
  set (rx := fst (IOTCLIENT_Receive (hIoTClient st) w)).
  destruct (Z.eq_dec (rx_result rx) EOK) as [Hres|Hres].
  - destruct (accepted rx) eqn:Hacc.
    + assert (exists body, rx_pBody rx = Some body) as [body Hbody].
      { unfold accepted in Hacc. destruct (rx_pBody rx) as [body|];
          [eauto | discriminate]. }
      rewrite (ProcessMessage_accepted st w body Hres Hbody Hacc).
      fold rx. unfold trace_of at 1 3; cbn [snd stream_headers].
      destruct (message_prints_quiet rx) as (Hs1 & _).
      destruct (extraction_trace_quiet (rx_pHeader rx)) as (Hs2 & _).
      rewrite !stream_headers_app, Hs1, Hs2.
      rewrite ProcessCommand_stream_headers.
      destruct (error_print_quiet st
        (result_of (ProcessCommand (Some st)
           (Some (terminated_body body (rx_bodyLength rx)))
           (extracted_msgId (rx_pHeader rx))
           (snd (IOTCLIENT_Receive (hIoTClient st) w))))) as (Hs3 & _).
      rewrite Hs3. cbn [app].
      destruct (fst (popen _ "r" _)) as [fp|]; [|left; reflexivity].
      destruct (fileno fp =? -1); [left | right]; reflexivity.
    + left. apply (rejected_calls_nothing st w Hres Hacc).
  - left. rewrite (ProcessMessage_receive_failed st w Hres).
    unfold trace_of; cbn [snd stream_headers].
    apply (error_print_quiet st).
Qed.

(** When the message is accepted, the command starts and its descriptor
    is obtained, the cycle calls [IOTCLIENT_Stream] exactly once. *)
Lemma ProcessMessage_streams (st : IOTExecState) (w : World)
      (body : Buffer) (fp : FILE) :
  let rx := fst (IOTCLIENT_Receive (hIoTClient st) w) in
  let w1 := snd (IOTCLIENT_Receive (hIoTClient st) w) in
  let t := trace_of (ProcessMessage (Some st) w) in
  rx_result rx = EOK ->
  rx_pBody rx = Some body ->
  size_add (rx_headerLength rx) (rx_bodyLength rx) < MAX_MESSAGE_LENGTH ->
  fst (popen (terminated_body body (rx_bodyLength rx)) "r" w1) = Some fp ->
  fileno fp <> -1 ->
  stream_headers t = [response_headers (extracted_msgId (rx_pHeader rx))]
  /\ popen_cmds t = [terminated_body body (rx_bodyLength rx)].
Proof.
  cbv zeta. intros Hres Hbody Hsize Hpopen Hfd.
  set (rx := fst (IOTCLIENT_Receive (hIoTClient st) w)) in *.
  assert (accepted rx = true) as Hacc.
  { unfold accepted. rewrite Hbody. apply Z.ltb_lt. exact Hsize. }
  rewrite (ProcessMessage_accepted st w body Hres Hbody Hacc). fold rx.
  unfold trace_of at 1 3; cbn [snd stream_headers popen_cmds].
  destruct (message_prints_quiet rx) as (Hs1 & Hp1 & _).
  destruct (extraction_trace_quiet (rx_pHeader rx)) as (Hs2 & Hp2 & _).
  rewrite !stream_headers_app, !popen_cmds_app, Hs1, Hs2, Hp1, Hp2.
  rewrite ProcessCommand_stream_headers, ProcessCommand_popen_cmds, Hpopen.
  apply Z.eqb_neq in Hfd. rewrite Hfd.
  destruct (error_print_quiet st
    (result_of (ProcessCommand (Some st)
       (Some (terminated_body body (rx_bodyLength rx)))
       (extracted_msgId (rx_pHeader rx))
       (snd (IOTCLIENT_Receive (hIoTClient st) w))))) as (Hs3 & Hp3 & _).
  rewrite Hs3, Hp3. split; reflexivity.
Qed.

Lemma base_headers_lines :
  lines base_headers = ["source:exec"; "messagetype:cmdresp"].
Proof. reflexivity. Qed.

(** C3.  When the received message has no header, or the lookup of
    [messageId] in its header does not succeed, every
    [IOTCLIENT_Stream] call of the cycle carries exactly the two lines
    [source:exec] and [messagetype:cmdresp]; and the call is made as soon
    as the message is accepted and its command started. *)
Theorem C3_no_messageId_gives_base_headers (st : IOTExecState) (w : World) :
  let rx := fst (IOTCLIENT_Receive (hIoTClient st) w) in
  let w1 := snd (IOTCLIENT_Receive (hIoTClient st) w) in
  let t := trace_of (ProcessMessage (Some st) w) in
  rx_result rx = EOK ->
  (rx_pHeader rx = None
   \/ exists header,
        rx_pHeader rx = Some header
        /\ fst (IOTCLIENT_GetProperty header "messageId" RXMSGID_SIZE)
           <> EOK) ->
  Forall (fun h => h = base_headers
                   /\ lines h = ["source:exec"; "messagetype:cmdresp"])
         (stream_headers t)
  /\ (forall body fp,
        rx_pBody rx = Some body ->
        size_add (rx_headerLength rx) (rx_bodyLength rx)
        < MAX_MESSAGE_LENGTH ->
        fst (popen (terminated_body body (rx_bodyLength rx)) "r" w1)
        = Some fp ->
        fileno fp <> -1 ->
        stream_headers t = [base_headers]).
Proof.
  cbv zeta. intros Hres Hhdr.
  set (rx := fst (IOTCLIENT_Receive (hIoTClient st) w)) in *.
  assert (extracted_msgId (rx_pHeader rx) = None) as Hid.
  { destruct Hhdr as [Hnone | (header & Hsome & Hrc)].
    - rewrite Hnone. reflexivity.
    - rewrite Hsome. unfold extracted_msgId.
      destruct (IOTCLIENT_GetProperty header "messageId" RXMSGID_SIZE)
        as [rc id]; cbn [fst] in Hrc.
      apply Z.eqb_neq in Hrc. rewrite Hrc. reflexivity. }
  split.
  - destruct (ProcessMessage_stream_headers st w) as [Hs|Hs];
      rewrite Hs; [constructor|].
    fold rx. rewrite Hid. repeat constructor.
  - intros body fp Hbody Hsize Hpopen Hfd.
    destruct (ProcessMessage_streams st w body fp Hres Hbody Hsize Hpopen Hfd)
      as (Hs & _).
    rewrite Hs. fold rx. rewrite Hid. reflexivity.
Qed.

(** C2.  When the lookup of [messageId] in the header of the received
    message succeeds with a value [X] shorter than 64 bytes, every
    [IOTCLIENT_Stream] call of the cycle carries the base headers
    followed by the line [correlationId:X]; and the call is made as soon
    as the message is accepted and its command started.  [BUFSIZ] is at
    least 256, as the C standard requires. *)
Theorem C2_messageId_becomes_correlationId (st : IOTExecState) (w : World)
        (header X : string) :
  let rx := fst (IOTCLIENT_Receive (hIoTClient st) w) in
  let w1 := snd (IOTCLIENT_Receive (hIoTClient st) w) in
  let t := trace_of (ProcessMessage (Some st) w) in
  256 <= BUFSIZ ->
  rx_result rx = EOK ->
  rx_pHeader rx = Some header ->
  IOTCLIENT_GetProperty header "messageId" RXMSGID_SIZE = (EOK, X) ->
  strlen X < 64 ->
  Forall (fun h => h = format_correlation base_headers X
                   /\ has_line ("correlationId:" ++ X) h)
         (stream_headers t)
  /\ (forall body fp,
        rx_pBody rx = Some body ->
        size_add (rx_headerLength rx) (rx_bodyLength rx)
        < MAX_MESSAGE_LENGTH ->
        fst (popen (terminated_body body (rx_bodyLength rx)) "r" w1)
        = Some fp ->
        fileno fp <> -1 ->
        stream_headers t = [format_correlation base_headers X]).
Proof.
  cbv zeta. intros Hbuf Hres Hhdr Hget Hlen.
  set (rx := fst (IOTCLIENT_Receive (hIoTClient st) w)) in *.
  assert (response_headers (extracted_msgId (rx_pHeader rx))
          = format_correlation base_headers X) as Hid.
  { rewrite Hhdr. unfold extracted_msgId. rewrite Hget.
    change (EOK =? EOK) with true. cbv iota.
    apply response_headers_fits; unfold INT_MAX; lia. }
  split.
  - destruct (ProcessMessage_stream_headers st w) as [Hs|Hs];
      rewrite Hs; [constructor|].
    fold rx. rewrite Hid. repeat constructor. apply has_line_format.
  - intros body fp Hbody Hsize Hpopen Hfd.
    destruct (ProcessMessage_streams st w body fp Hres Hbody Hsize Hpopen Hfd)
      as (Hs & _).
    rewrite Hs. fold rx. rewrite Hid. reflexivity.
Qed.

End ReplyHeaders.

Lemma C3_no_messageId_gives_base_headers_witness :
  let w := Sample.world_with [Sample.msg_no_id] in
  let t := trace_of (ProcessMessage (Some Sample.st0) w) in
  fst (Sample.get_property "source:dev" "messageId" RXMSGID_SIZE) <> EOK
  /\ Forall (fun h => h = base_headers
                      /\ lines h = ["source:exec"; "messagetype:cmdresp"])
            (stream_headers t)
  /\ stream_headers t = [base_headers].
Proof.
  cbv zeta.
  assert (fst (Sample.get_property "source:dev" "messageId" RXMSGID_SIZE)
          <> EOK) as Hrc by (vm_compute; discriminate).
  split; [exact Hrc|].
  destruct (C3_no_messageId_gives_base_headers
              Sample.st0 (Sample.world_with [Sample.msg_no_id]) eq_refl
              (or_intror (ex_intro _ "source:dev" (conj eq_refl Hrc))))
    as [Hall Hone].
  split; [exact Hall|].
  apply (Hone (buffer_of_string "echo hello") 3);
    [reflexivity | reflexivity | reflexivity | discriminate].
Defined.

Lemma C2_messageId_becomes_correlationId_witness :
  let w := Sample.world_with [Sample.msg_date] in
  let t := trace_of (ProcessMessage (Some Sample.st0) w) in
  Sample.get_property "messageId:abc123" "messageId" RXMSGID_SIZE
  = (EOK, "abc123")
  /\ Forall (fun h => h = format_correlation base_headers "abc123"
                      /\ has_line "correlationId:abc123" h)
            (stream_headers t)
  /\ stream_headers t = [format_correlation base_headers "abc123"].
Proof.
  cbv zeta. split; [reflexivity|].
  destruct (C2_messageId_becomes_correlationId
              Sample.st0 (Sample.world_with [Sample.msg_date])
              "messageId:abc123" "abc123")
    as [Hall Hone];
    [vm_compute; discriminate | reflexivity | reflexivity | reflexivity
    | reflexivity | ].
  split; [exact Hall|].
  apply (Hone (buffer_of_string "date") 3);
    [reflexivity | reflexivity | reflexivity | discriminate].
Defined.

(** ** The layout of the headers and the scratch buffer *)

Section Builder.

Context {P : Platform}.
Import StringFacts.

(** C7.  When the base headers followed by the correlation line do not
    fit the scratch buffer of [BUFSIZ] bytes, [ProcessCommand] still
    runs the command and, the command started, still calls
    [IOTCLIENT_Stream], with the base headers alone; its result is the
    result of that call. *)
Theorem C7_oversized_correlation_falls_back (st : IOTExecState)
        (cmd id : string) (w : World) :
  let run := ProcessCommand (Some st) (Some cmd) (Some id) w in
  BUFSIZ <= INT_MAX ->
  BUFSIZ <= strlen (format_correlation base_headers id) ->
  popen_cmds (trace_of run) = [cmd]
  /\ Forall (fun h => h = base_headers) (stream_headers (trace_of run))
  /\ (forall fp,
        fst (popen cmd "r" w) = Some fp ->
        fileno fp <> -1 ->
        stream_headers (trace_of run) = [base_headers]
        /\ result_of run
           = fst (IOTCLIENT_Stream (hIoTClient st) base_headers (fileno fp)
                                   (snd (popen cmd "r" w)))).
Proof.
  cbv zeta. intros Hmax Hbig.
  rewrite strlen_format_correlation in Hbig.
  pose proof (response_headers_overflow id Hmax Hbig) as Hh.
  split; [apply ProcessCommand_popen_cmds|]. split.
  - rewrite ProcessCommand_stream_headers, Hh.
    destruct (fst (popen cmd "r" w)) as [fp|]; [|constructor].
    destruct (fileno fp =? -1); repeat constructor.
  - intros fp Hpopen Hfd. apply Z.eqb_neq in Hfd. split.
    + rewrite ProcessCommand_stream_headers, Hpopen, Hfd, Hh. reflexivity.
    + rewrite ProcessCommand_run, Hh.
      destruct (popen cmd "r" w) as [fp' w1]; cbn [fst snd] in *.
      subst fp'. rewrite Hfd.
      destruct (IOTCLIENT_Stream _ _ _ w1) as [r w2]. reflexivity.
Qed.

(** C6, as the program has it.  The header blob handed to
    [IOTCLIENT_Stream] has one [key:value] pair per line.  Without an
    identifier, or with one whose line does not fit the scratch buffer,
    it is [source:exec], a newline, [messagetype:cmdresp], and it does not
    end with a newline.  With an identifier that fits, it is these two
    lines and [correlationId:X], each of the three followed by a newline:
    the blob then ends with a newline.  The blob is handed over exactly
    once when the command starts and its descriptor is obtained. *)
Theorem C6_header_layout (st : IOTExecState) (cmd : string)
        (msgId : option string) (w : World) :
  let run := ProcessCommand (Some st) (Some cmd) msgId w in
  BUFSIZ <= INT_MAX ->
  Forall
    (fun h =>
       match msgId with
       | Some id =>
           if strlen (format_correlation base_headers id) <? BUFSIZ
           then h = "source:exec" ++ nl ++ "messagetype:cmdresp" ++ nl
                    ++ "correlationId:" ++ id ++ nl
                /\ ends_with_newline h = true
           else h = "source:exec" ++ nl ++ "messagetype:cmdresp"
                /\ ends_with_newline h = false
       | None =>
           h = "source:exec" ++ nl ++ "messagetype:cmdresp"
           /\ ends_with_newline h = false
       end)
    (stream_headers (trace_of run))
  /\ (forall fp,
        fst (popen cmd "r" w) = Some fp ->
        fileno fp <> -1 ->
        stream_headers (trace_of run) = [response_headers msgId]).
Proof.
  cbv zeta. intros Hmax. split.
  - rewrite ProcessCommand_stream_headers.
    destruct (fst (popen cmd "r" w)) as [fp|]; [|constructor].
    destruct (fileno fp =? -1); [constructor|].
    constructor; [|constructor].
    destruct msgId as [id|]; [|split; reflexivity].
    rewrite strlen_format_correlation.
    destruct (47 + strlen id <? BUFSIZ) eqn:Hfit.
    + apply Z.ltb_lt in Hfit.
      rewrite response_headers_fits by lia. split.
      * reflexivity.
      * apply ends_with_newline_format.
    + apply Z.ltb_ge in Hfit.
      rewrite response_headers_overflow by assumption.
      split; reflexivity.
  - intros fp Hpopen Hfd. apply Z.eqb_neq in Hfd.
    rewrite ProcessCommand_stream_headers, Hpopen, Hfd. reflexivity.
Qed.

End Builder.

Lemma C7_oversized_correlation_falls_back_witness :
  let w := Sample.world_with [] in
  let run :=
    ProcessCommand (Some Sample.st0) (Some "date") (Some Sample.long_id) w in
  8192 <= strlen (format_correlation base_headers Sample.long_id)
  /\ popen_cmds (trace_of run) = ["date"]
  /\ stream_headers (trace_of run) = [base_headers]
  /\ result_of run = EOK.
Proof.
  cbv zeta.
  assert (8192 <= strlen (format_correlation base_headers Sample.long_id))
    as Hbig by (vm_compute; discriminate).
  split; [exact Hbig|].
  destruct (C7_oversized_correlation_falls_back
              Sample.st0 "date" Sample.long_id (Sample.world_with []))
    as (Hcmd & _ & Hone); [vm_compute; discriminate | exact Hbig |].
  split; [exact Hcmd|].
  apply (Hone 3); [reflexivity | discriminate].
Defined.

(** C6 as it is written fails: with an identifier the blob ends with a
    newline after its last line. *)
Lemma C6_counterexample :
  let run :=
    ProcessCommand (Some Sample.st0) (Some "date") (Some "abc123")
                   (Sample.world_with []) in
  stream_headers (trace_of run)
  = ["source:exec" ++ nl ++ "messagetype:cmdresp" ++ nl
     ++ "correlationId:abc123" ++ nl]
  /\ ~ Forall (fun h => ends_with_newline h = false)
              (stream_headers (trace_of run)).
Proof.
  cbv zeta. split; [reflexivity|].
  intros Hall. inversion Hall as [|h hs Hh _ Heq]. discriminate Hh.
Qed.

Lemma C6_header_layout_witness :
  let run :=
    ProcessCommand (Some Sample.st0) (Some "date") (Some "abc123")
                   (Sample.world_with []) in
  Forall (fun h => h = "source:exec" ++ nl ++ "messagetype:cmdresp" ++ nl
                       ++ "correlationId:abc123" ++ nl
                   /\ ends_with_newline h = true)
         (stream_headers (trace_of run))
  /\ List.length (stream_headers (trace_of run)) = 1%nat.
Proof.
  cbv zeta.
  destruct (C6_header_layout Sample.st0 "date" (Some "abc123")
                             (Sample.world_with []))
    as [Hall Hone]; [vm_compute; discriminate|].
  split.
  - exact Hall.
  - rewrite (Hone 3); [reflexivity | reflexivity | discriminate].
Defined.

(** ** The order of the property lookup and the size test *)

Section Order.

Context {P : Platform}.

(** What follows the property lookup in [extraction_trace]: at most the
    print of the identifier. *)
Lemma extraction_trace_some (header : string) :
  exists print,
    extraction_trace (Some header)
    = EvGetProperty header "messageId" RXMSGID_SIZE :: print
    /\ getproperty_calls print = []
    /\ popen_cmds print = []
    /\ stream_headers print = [].
Proof.
  unfold extraction_trace.
  destruct (extracted_msgId (Some header)) as [id|];
    eexists; repeat split; reflexivity.
Qed.

(** C4, as the program has it.  In a cycle whose receive succeeds with a
    header, the lookup of [messageId] is the first call after the
    receive, and the only lookup; it is made whether or not the message
    then passes the size test.  The size test comes after it and
    decides the execution alone: a message that fails it gives
    [EMSGSIZE] with no [popen] and no [IOTCLIENT_Stream] call, a message
    that passes it has its body run by [popen]. *)
Theorem C4_lookup_precedes_size_test (st : IOTExecState) (w : World)
        (header : string) :
  let rx := fst (IOTCLIENT_Receive (hIoTClient st) w) in
  let run := ProcessMessage (Some st) w in
  rx_result rx = EOK ->
  rx_pHeader rx = Some header ->
  exists rest,
    trace_of run
    = (EvReceive (hIoTClient st) :: message_prints rx
       ++ EvGetProperty header "messageId" RXMSGID_SIZE :: rest)%list
    /\ getproperty_calls rest = []
    /\ (accepted rx = false ->
        result_of run = EMSGSIZE
        /\ popen_cmds rest = [] /\ stream_headers rest = [])
    /\ (forall body,
          rx_pBody rx = Some body -> accepted rx = true ->
          popen_cmds rest = [terminated_body body (rx_bodyLength rx)]).
Proof.
  cbv zeta. intros Hres Hhdr.
  set (rx := fst (IOTCLIENT_Receive (hIoTClient st) w)) in *.
  destruct (extraction_trace_some header) as (print & Hex & Hg & Hp & Hs).
  destruct (accepted rx) eqn:Hacc.
  - assert (exists body, rx_pBody rx = Some body) as [body Hbody].
    { unfold accepted in Hacc. destruct (rx_pBody rx) as [body|];
        [eauto | discriminate]. }
    rewrite (ProcessMessage_accepted st w body Hres Hbody Hacc). fold rx.
    set (run := ProcessCommand _ _ _ _).
    destruct (error_print_quiet st (result_of run)) as (_ & Hp3 & Hg3 & _).
    exists (print ++ trace_of run ++ error_print st (result_of run))%list.
    unfold trace_of at 1, result_of at 1; cbn [fst snd].
    rewrite Hhdr, Hex. repeat split.
    + rewrite !getproperty_calls_app, Hg, Hg3.
      unfold run. rewrite (proj2 (ProcessCommand_no_receive _ _ _ _)).
      reflexivity.
    + discriminate.
    + discriminate.
    + discriminate.
    + intros body' Hbody' _. rewrite Hbody in Hbody'.
      injection Hbody' as <-.
      rewrite !popen_cmds_app, Hp, Hp3. unfold run.
      rewrite ProcessCommand_popen_cmds. reflexivity.
  - rewrite (ProcessMessage_rejected st w Hres Hacc). fold rx.
    destruct (error_print_quiet st EMSGSIZE) as (Hs3 & Hp3 & Hg3 & _).
    exists (print ++ error_print st EMSGSIZE)%list.
    unfold trace_of, result_of; cbn [fst snd].
    rewrite Hhdr, Hex. repeat split.
    + rewrite getproperty_calls_app, Hg, Hg3. reflexivity.
    + rewrite popen_cmds_app, Hp, Hp3. reflexivity.
    + rewrite stream_headers_app, Hs, Hs3. reflexivity.
    + intros body _ Habs. discriminate Habs.
Qed.

End Order.

(** C4 as it is written fails: the lookup is made, and succeeds, on a
    message that the size test then rejects. *)
Lemma C4_counterexample :
  let run :=
    ProcessMessage (Some Sample.st0) (Sample.world_with [Sample.msg_big_id]) in
  MAX_MESSAGE_LENGTH <= size_add 16 4090
  /\ result_of run = EMSGSIZE
  /\ getproperty_calls (trace_of run) = ["messageId:abc123"]
  /\ In (EvStdout (MsgMessageId "abc123")) (trace_of run).
Proof.
  cbv zeta. split; [vm_compute; discriminate|].
  split; [reflexivity|]. split; [reflexivity|].
  vm_compute. tauto.
Qed.

Lemma C4_lookup_precedes_size_test_witness :
  let w := Sample.world_with [Sample.msg_big_id] in
  let run := ProcessMessage (Some Sample.st0) w in
  exists rest,
    trace_of run
    = (EvReceive (hIoTClient Sample.st0) :: message_prints Sample.msg_big_id
       ++ EvGetProperty "messageId:abc123" "messageId" RXMSGID_SIZE
       :: rest)%list
    /\ result_of run = EMSGSIZE
    /\ popen_cmds rest = [] /\ stream_headers rest = [].
Proof.
  cbv zeta.
  destruct (C4_lookup_precedes_size_test
              Sample.st0 (Sample.world_with [Sample.msg_big_id])
              "messageId:abc123" eq_refl eq_refl)
    as (rest & Ht & _ & Hrej & _).
  exists rest. split; [exact Ht|].
  apply Hrej. reflexivity.
Defined.

(** ** Consecutive cycles *)

Section Cycles.

Context {P : Platform}.
Import StringFacts.

(** Every cycle starts with its receive and makes no other. *)
Lemma ProcessMessage_one_receive (st : IOTExecState) (w : World) :
  exists cycle,
    trace_of (ProcessMessage (Some st) w) = EvReceive (hIoTClient st) :: cycle
    /\ receive_count cycle = O.
Proof.
  set (rx := fst (IOTCLIENT_Receive (hIoTClient st) w)).
  destruct (message_prints_quiet rx) as (_ & _ & _ & Hr1).
  destruct (extraction_trace_quiet (rx_pHeader rx)) as (_ & _ & Hr2).
  destruct (Z.eq_dec (rx_result rx) EOK) as [Hres|Hres].
  - destruct (accepted rx) eqn:Hacc.
    + assert (exists body, rx_pBody rx = Some body) as [body Hbody].
      { unfold accepted in Hacc. destruct (rx_pBody rx) as [body|];
          [eauto | discriminate]. }
      rewrite (ProcessMessage_accepted st w body Hres Hbody Hacc). fold rx.
      set (run := ProcessCommand _ _ _ _).
      destruct (error_print_quiet st (result_of run)) as (_ & _ & _ & Hr3).
      eexists. unfold trace_of at 1; cbn [snd]. split; [reflexivity|].
      rewrite !receive_count_app, Hr1, Hr2, Hr3. unfold run.
      rewrite (proj1 (ProcessCommand_no_receive _ _ _ _)). reflexivity.
    + rewrite (ProcessMessage_rejected st w Hres Hacc). fold rx.
      destruct (error_print_quiet st EMSGSIZE) as (_ & _ & _ & Hr3).
      eexists. unfold trace_of; cbn [snd]. split; [reflexivity|].
      rewrite !receive_count_app, Hr1, Hr2, Hr3. reflexivity.
  - rewrite (ProcessMessage_receive_failed st w Hres). fold rx.
    eexists. unfold trace_of; cbn [snd]. split; [reflexivity|].
    apply (error_print_quiet st).
Qed.

Lemma ProcessMessages_loop_result (st : IOTExecState) (n : nat) (w : World) :
  result_of (ProcessMessages_loop n (Some st) w) = None.
Proof.
  revert w. induction n as [|n IH]; intros w; [reflexivity|].
  cbn [ProcessMessages_loop]. unfold bind.
  destruct (ProcessMessage (Some st) w) as [[r w1] t1].
  specialize (IH w1).
  destruct (ProcessMessages_loop n (Some st) w1) as [[o w2] t2].
  exact IH.
Qed.

(** One more iteration, seen from the start of the loop. *)
Lemma ProcessMessages_loop_S (st : IOTExecState) (n : nat) (w : World) :
  let first := ProcessMessage (Some st) w in
  world_of (ProcessMessages_loop (S n) (Some st) w)
  = world_of (ProcessMessages_loop n (Some st) (world_of first))
  /\ trace_of (ProcessMessages_loop (S n) (Some st) w)
     = (trace_of first
        ++ trace_of (ProcessMessages_loop n (Some st) (world_of first)))%list.
Proof.
  cbv zeta. cbn [ProcessMessages_loop]. unfold bind, world_of, trace_of.
  destruct (ProcessMessage (Some st) w) as [[r w1] t1]. cbn [fst snd].
  destruct (ProcessMessages_loop n (Some st) w1) as [[o w2] t2].
  split; reflexivity.
Qed.

(** One more iteration, seen from the end of the loop: whatever the
    first [n] cycles gave, the next one is a whole [ProcessMessage] in
    the world they left. *)
Lemma ProcessMessages_loop_next (st : IOTExecState) (n : nat) (w : World) :
  let run := ProcessMessages_loop n (Some st) w in
  let last := ProcessMessage (Some st) (world_of run) in
  world_of (ProcessMessages_loop (S n) (Some st) w) = world_of last
  /\ trace_of (ProcessMessages_loop (S n) (Some st) w)
     = (trace_of run ++ trace_of last)%list.
Proof.
  cbv zeta. revert w. induction n as [|n IH]; intros w.
  - cbn [ProcessMessages_loop]. unfold bind, ret, world_of, trace_of.
    cbn [fst snd].
    destruct (ProcessMessage (Some st) w) as [[r w1] t1]. cbn [fst snd app].
    rewrite app_nil_r. split; reflexivity.
  - destruct (ProcessMessages_loop_S st (S n) w) as [Hw Ht].
    destruct (ProcessMessages_loop_S st n w) as [Hw' Ht'].
    destruct (IH (world_of (ProcessMessage (Some st) w))) as [IHw IHt].
    rewrite Hw, Ht, Hw', Ht', IHw, IHt, app_assoc. split; reflexivity.
Qed.

Lemma ProcessMessages_loop_receives (st : IOTExecState) (n : nat)
      (w : World) :
  receive_count (trace_of (ProcessMessages_loop n (Some st) w)) = n.
Proof.
  revert w. induction n as [|n IH]; intros w; [reflexivity|].
  destruct (ProcessMessages_loop_S st n w) as [_ Ht]. rewrite Ht.
  destruct (ProcessMessage_one_receive st w) as (cycle & Hc & Hz).
  rewrite receive_count_app, Hc, IH. cbn [receive_count]. rewrite Hz.
  reflexivity.
Qed.

(** C9.  The dispatch loop never returns: however many cycles are run,
    [ProcessMessages] is still in its loop.  Each of the [n] cycles made
    one receive, and whatever their results were the next thing the loop
    does is a whole [ProcessMessage], which starts with
    [IOTCLIENT_Receive]. *)
Theorem C9_dispatch_loop_never_exits (st : IOTExecState) (w : World)
        (n : nat) :
  let run := ProcessMessages n (Some st) w in
  let next := ProcessMessage (Some st) (world_of run) in
  result_of run = None
  /\ receive_count (trace_of run) = n
  /\ trace_of (ProcessMessages (S n) (Some st) w)
     = (trace_of run ++ trace_of next)%list
  /\ exists cycle,
       trace_of next = EvReceive (hIoTClient st) :: cycle
       /\ receive_count cycle = O.
Proof.
  cbv zeta. unfold ProcessMessages. repeat split.
  - apply ProcessMessages_loop_result.
  - apply ProcessMessages_loop_receives.
  - apply ProcessMessages_loop_next.
  - apply ProcessMessage_one_receive.
Qed.

(** C8.  Two cycles in sequence, from any two starting worlds [w] and
    [w']: when the second messages received have the same header, the
    headers of the second replies are the same, whatever the first
    messages were.  And a reply of the second cycle carries the line
    [correlationId:X] only when the lookup of [messageId] in the second
    message's own header succeeds with [X]. *)
Theorem C8_reply_depends_on_own_header (st : IOTExecState) (w w' : World) :
  let w1 := world_of (ProcessMessage (Some st) w) in
  let w1' := world_of (ProcessMessage (Some st) w') in
  let rx2 := fst (IOTCLIENT_Receive (hIoTClient st) w1) in
  let rx2' := fst (IOTCLIENT_Receive (hIoTClient st) w1') in
  let t2 := trace_of (ProcessMessage (Some st) w1) in
  let t2' := trace_of (ProcessMessage (Some st) w1') in
  BUFSIZ <= INT_MAX ->
  (rx_pHeader rx2 = rx_pHeader rx2' ->
   forall h h',
     In h (stream_headers t2) -> In h' (stream_headers t2') -> h = h')
  /\ (forall X,
        In (format_correlation base_headers X) (stream_headers t2) ->
        exists header,
          rx_pHeader rx2 = Some header
          /\ IOTCLIENT_GetProperty header "messageId" RXMSGID_SIZE
             = (EOK, X)).
Proof.
  cbv zeta. intros Hmax.
  set (w1 := world_of (ProcessMessage (Some st) w)).
  set (w1' := world_of (ProcessMessage (Some st) w')).
  assert (Hown : forall v h,
    In h (stream_headers (trace_of (ProcessMessage (Some st) v))) ->
    h = response_headers
          (extracted_msgId
             (rx_pHeader (fst (IOTCLIENT_Receive (hIoTClient st) v))))).
  { intros v h Hin.
    destruct (ProcessMessage_stream_headers st v) as [Hs|Hs];
      rewrite Hs in Hin; [destruct Hin|].
    destruct Hin as [<-|[]]. reflexivity. }
  split.
  - intros Hsame h h' Hin Hin'.
    rewrite (Hown w1 h Hin), (Hown w1' h' Hin'), Hsame. reflexivity.
  - intros X Hin. apply Hown in Hin.
    destruct (rx_pHeader (fst (IOTCLIENT_Receive (hIoTClient st) w1)))
      as [header|]; cbn [extracted_msgId] in Hin.
    + exists header. split; [reflexivity|].
      destruct (IOTCLIENT_GetProperty header "messageId" RXMSGID_SIZE)
        as [rc id].
      destruct (rc =? EOK) eqn:Hrc.
      * apply Z.eqb_eq in Hrc. subst rc.
        destruct (response_headers_cases id Hmax) as [Hh|Hh];
          rewrite Hh in Hin.
        -- exfalso. exact (format_correlation_not_base X Hin).
        -- apply format_correlation_inj in Hin. subst id. reflexivity.
      * exfalso. exact (format_correlation_not_base X Hin).
    + exfalso. exact (format_correlation_not_base X Hin).
Qed.

End Cycles.

Lemma C8_reply_depends_on_own_header_witness :
  let w := Sample.world_with [Sample.msg_date; Sample.msg_echo] in
  let w' := Sample.world_with [Sample.msg_no_id; Sample.msg_echo] in
  let second v :=
    trace_of (ProcessMessage (Some Sample.st0)
                (world_of (ProcessMessage (Some Sample.st0) v))) in
  stream_headers (second w) = [base_headers]
  /\ (forall h h',
        In h (stream_headers (second w)) ->
        In h' (stream_headers (second w')) -> h = h')
  /\ exists header,
       rx_pHeader Sample.msg_date = Some header
       /\ Sample.get_property header "messageId" RXMSGID_SIZE
          = (EOK, "abc123").
Proof.
  cbv zeta. split; [reflexivity|]. split.
  - destruct (C8_reply_depends_on_own_header
                Sample.st0
                (Sample.world_with [Sample.msg_date; Sample.msg_echo])
                (Sample.world_with [Sample.msg_no_id; Sample.msg_echo]))
      as [Hsame _]; [vm_compute; discriminate|].
    apply Hsame. reflexivity.
  - destruct (C8_reply_depends_on_own_header
                Sample.st0
                (Sample.world_with [Sample.msg_echo; Sample.msg_date])
                (Sample.world_with [Sample.msg_echo; Sample.msg_date]))
      as [_ Hown]; [vm_compute; discriminate|].
    apply (Hown "abc123"). left. reflexivity.
Defined.

(** Four cycles in a world where no subprocess can be started: two
    rejected messages, a failed launch and a failed receive are reported
    one after the other, and the loop is still running. *)
Example dispatch_loop_survives_failures :
  let w := Sample.mkWorld [Sample.msg_big; Sample.msg_nobody; Sample.msg_echo]
                          false 3 EOK [] in
  let run := ProcessMessages 4 (Some Sample.st_verbose) w in
  result_of run = None
  /\ reported_errors (trace_of run)
     = [EMSGSIZE; EMSGSIZE; ENOTSUP; Sample.EAGAIN]
  /\ receive_count (trace_of run) = 4%nat.
Proof. cbv zeta. repeat split; reflexivity. Qed.

(** The descriptor of the command cannot be obtained; the transport fails
    to stream (here with 5, EIO) and then the queue is empty: the loop is
    still running. *)
Example dispatch_loop_survives_stream_failures :
  let run1 := ProcessMessages 1 (Some Sample.st_verbose)
                (Sample.mkWorld [Sample.msg_echo] true (-1) EOK []) in
  let run2 := ProcessMessages 2 (Some Sample.st_verbose)
                (Sample.mkWorld [Sample.msg_date] true 3 5 []) in
  result_of run1 = None
  /\ reported_errors (trace_of run1) = [EBADF]
  /\ stream_headers (trace_of run1) = []
  /\ result_of run2 = None
  /\ reported_errors (trace_of run2) = [5; Sample.EAGAIN]
  /\ receive_count (trace_of run2) = 2%nat.
Proof. cbv zeta. repeat split; reflexivity. Qed.

(** Scenario A: body [echo hello], no header. *)
Example scenario_A :
  let run :=
    ProcessMessage (Some Sample.st0) (Sample.world_with [Sample.msg_echo]) in
  result_of run = EOK
  /\ popen_cmds (trace_of run) = ["echo hello"]
  /\ stream_headers (trace_of run)
     = ["source:exec" ++ nl ++ "messagetype:cmdresp"].
Proof. cbv zeta. repeat split; reflexivity. Qed.


(** * Further properties of the program *)

(** ** The command handed to [popen] *)

Module BodyFacts.

Import StringFacts.

(** Reading a C string looks only at the bytes from [from] on, [fuel] of
    them at most. *)
Lemma read_c_string_ext (p q : Buffer) (from fuel : nat) :
  (forall j, (from <= j < from + fuel)%nat -> p j = q j) ->
  read_c_string p from fuel = read_c_string q from fuel.
Proof.
  revert from. induction fuel as [|k IH]; intros from Hpq; [reflexivity|].
  cbn [read_c_string]. rewrite (Hpq from) by lia.
  destruct (Ascii.eqb (q from) NUL); [reflexivity|].
  f_equal. apply IH. intros j Hj. apply Hpq. lia.
Qed.

(** The store of the NUL at [bodyLength] is not seen by the read of the
    [bodyLength] bytes before it. *)
Lemma terminated_body_read (pBody : Buffer) (bodyLength : Z) :
  terminated_body pBody bodyLength
  = read_c_string pBody 0 (Z.to_nat bodyLength).
Proof.
  unfold terminated_body. apply read_c_string_ext.
  intros j Hj. unfold store.
  destruct (Nat.eqb_spec j (Z.to_nat bodyLength)); [lia | reflexivity].
Qed.

Lemma read_c_string_get (p : Buffer) (from fuel i : nat) (c : ascii) :
  get i (read_c_string p from fuel) = Some c ->
  c = p (from + i)%nat /\ c <> NUL.
Proof.
  revert from i. induction fuel as [|k IH]; intros from i; cbn [read_c_string].
  - destruct i; discriminate.
  - destruct (Ascii.eqb_spec (p from) NUL) as [Hnul|Hnul].
    + destruct i; discriminate.
    + destruct i as [|i]; cbn [get].
      * intros [= <-]. rewrite Nat.add_0_r. split; [reflexivity | exact Hnul].
      * intros Hget. apply IH in Hget.
        replace (from + S i)%nat with (S from + i)%nat by lia. exact Hget.
Qed.

Lemma read_c_string_stops (p : Buffer) (from fuel i : nat) :
  p (from + i)%nat = NUL ->
  (String.length (read_c_string p from fuel) <= i)%nat.
Proof.
  revert from i. induction fuel as [|k IH]; intros from i Hnul;
    cbn [read_c_string]; [cbn; lia|].
  destruct (Ascii.eqb_spec (p from) NUL) as [Hz|Hz]; [cbn; lia|].
  destruct i as [|i].
  - rewrite Nat.add_0_r in Hnul. contradiction.
  - cbn [String.length]. apply le_n_S. apply IH.
    replace (S from + i)%nat with (from + S i)%nat by lia. exact Hnul.
Qed.

Lemma read_c_string_of_list (pre l : list ascii) :
  ~ In NUL l ->
  read_c_string (fun i => nth i (pre ++ l) NUL) (List.length pre)
                (List.length l)
  = string_of_list_ascii l.
Proof.
  revert pre. induction l as [|c l IH]; intros pre Hnul; [reflexivity|].
  cbn [List.length read_c_string string_of_list_ascii].
  rewrite nth_middle.
  destruct (Ascii.eqb_spec c NUL) as [Hc|Hc].
  - exfalso. apply Hnul. left. exact Hc.
  - f_equal. specialize (IH (pre ++ [c])%list).
    rewrite <- app_assoc, length_app in IH. cbn [List.length app] in IH.
    rewrite Nat.add_1_r in IH. apply IH.
    intros Hin. apply Hnul. right. exact Hin.
Qed.

(** X1.  The command [ProcessMessage] hands to [ProcessCommand] is made of
    bytes of the body, in place, none of them NUL, and has at most
    [bodyLength] of them. *)
Theorem terminated_body_is_body_prefix (pBody : Buffer) (bodyLength : Z) :
  let cmd := terminated_body pBody bodyLength in
  (String.length cmd <= Z.to_nat bodyLength)%nat
  /\ forall i c, get i cmd = Some c -> c = pBody i /\ c <> NUL.
Proof.
  cbv zeta. split.
  - rewrite terminated_body_read. apply read_c_string_length.
  - intros i c Hget. rewrite terminated_body_read in Hget.
    apply read_c_string_get in Hget. exact Hget.
Qed.

(** X2.  The command stops at the first NUL of the body: a NUL at offset [i]
    of the body leaves a command of [i] bytes at most. *)
Theorem terminated_body_stops_at_nul (pBody : Buffer) (bodyLength : Z)
        (i : nat) :
  pBody i = NUL ->
  (String.length (terminated_body pBody bodyLength) <= i)%nat.
Proof.
  intros Hnul. rewrite terminated_body_read.
  apply (read_c_string_stops pBody 0 (Z.to_nat bodyLength) i). exact Hnul.
Qed.

(** X3.  The bytes at and after [bodyLength] never reach the command: two
    buffers with the same first [bodyLength] bytes give the same
    command. *)
Theorem terminated_body_ignores_tail (pBody qBody : Buffer)
        (bodyLength : Z) :
  (forall j, (j < Z.to_nat bodyLength)%nat -> pBody j = qBody j) ->
  terminated_body pBody bodyLength = terminated_body qBody bodyLength.
Proof.
  intros Hsame. rewrite !terminated_body_read. apply read_c_string_ext.
  intros j Hj. apply Hsame. lia.
Qed.

(** X4.  A body without NUL, received with its own length, is the command,
    byte for byte. *)
Theorem terminated_body_of_text (body : string) :
  ~ In NUL (list_ascii_of_string body) ->
  terminated_body (buffer_of_string body) (strlen body) = body.
Proof.
  intros Hnul. rewrite terminated_body_read. unfold strlen, buffer_of_string.
  rewrite Nat2Z.id.
  replace (String.length body)
    with (List.length (list_ascii_of_string body)).
  - transitivity (string_of_list_ascii (list_ascii_of_string body)).
    + apply (read_c_string_of_list [] (list_ascii_of_string body) Hnul).
    + apply string_of_list_ascii_of_string.
  - clear. induction body as [|c body IH]; [reflexivity|].
    cbn [list_ascii_of_string List.length String.length]. now rewrite IH.
Qed.

End BodyFacts.

Lemma terminated_body_stops_at_nul_witness :
  buffer_of_string "ls" 2%nat = NUL
  /\ (String.length (terminated_body (buffer_of_string "ls") 40) <= 2)%nat.
Proof.
  split; [reflexivity|].
  apply (BodyFacts.terminated_body_stops_at_nul (buffer_of_string "ls") 40 2).
  reflexivity.
Defined.

Lemma terminated_body_ignores_tail_witness :
  terminated_body (buffer_of_string "date; rm x") 4
  = terminated_body (buffer_of_string "date") 4.
Proof.
  apply (BodyFacts.terminated_body_ignores_tail
           (buffer_of_string "date; rm x") (buffer_of_string "date") 4).
  intros j Hj.
  destruct j as [|[|[|[|j]]]]; try reflexivity.
  exfalso. change (Z.to_nat 4) with 4%nat in Hj. lia.
Defined.

Lemma terminated_body_of_text_witness :
  terminated_body (buffer_of_string "echo hello") (strlen "echo hello")
  = "echo hello".
Proof.
  apply (BodyFacts.terminated_body_of_text "echo hello").
  intros Hin. vm_compute in Hin.
  repeat (destruct Hin as [Hin|Hin]; [discriminate Hin|]). exact Hin.
Defined.

(** ** The external calls of a cycle, in order *)

Section CallSequence.

Context {P : Platform}.

Lemma external_calls_app (t1 t2 : list Event) :
  external_calls (t1 ++ t2) = (external_calls t1 ++ external_calls t2)%list.
Proof. apply filter_app. Qed.

Lemma external_calls_command_prints (st : IOTExecState) (cmd : string)
      (msgId : option string) :
  external_calls (command_prints st cmd msgId) = [].
Proof.
  unfold command_prints. destruct (verbose st); destruct msgId; reflexivity.
Qed.

Lemma external_calls_error_print (st : IOTExecState) (result : Z) :
  external_calls (error_print st result) = [].
Proof.
  unfold error_print. destruct (verbose st && negb (result =? EOK));
    reflexivity.
Qed.

Lemma external_calls_extraction_trace (pHeader : option string) :
  external_calls (extraction_trace pHeader)
  = match pHeader with
    | Some header => [EvGetProperty header "messageId" RXMSGID_SIZE]
    | None => []
    end.
Proof.
  unfold extraction_trace. destruct pHeader as [header|]; [|reflexivity].
  destruct (extracted_msgId (Some header)); reflexivity.
Qed.

Lemma external_calls_ProcessCommand (st : IOTExecState) (cmd : string)
      (msgId : option string) (w : World) :
  external_calls (trace_of (ProcessCommand (Some st) (Some cmd) msgId w))
  = command_calls st cmd msgId (fst (popen cmd "r" w)).
Proof.
  rewrite ProcessCommand_run. unfold command_calls.
  destruct (popen cmd "r" w) as [[fp|] w1]; cbn [fst].
  - destruct (fileno fp =? -1).
    + unfold trace_of; cbn [snd].
      rewrite external_calls_app, external_calls_command_prints. reflexivity.
    + destruct (IOTCLIENT_Stream _ _ _ w1) as [r w2].
      unfold trace_of; cbn [snd].
      rewrite external_calls_app, external_calls_command_prints. reflexivity.
  - unfold trace_of; cbn [snd].
    rewrite external_calls_app, external_calls_command_prints. reflexivity.
Qed.

Lemma external_calls_ProcessMessage (st : IOTExecState) (w : World) :
  let rx := fst (IOTCLIENT_Receive (hIoTClient st) w) in
  let w1 := snd (IOTCLIENT_Receive (hIoTClient st) w) in
  external_calls (trace_of (ProcessMessage (Some st) w))
  = EvReceive (hIoTClient st) ::
    (if rx_result rx =? EOK then
       match rx_pHeader rx with
       | Some header => [EvGetProperty header "messageId" RXMSGID_SIZE]
       | None => []
       end
       ++ match rx_pBody rx with
          | Some body =>
              if size_add (rx_headerLength rx) (rx_bodyLength rx)
                 <? MAX_MESSAGE_LENGTH
              then
                let cmd := terminated_body body (rx_bodyLength rx) in
                command_calls st cmd (extracted_msgId (rx_pHeader rx))
                              (fst (popen cmd "r" w1))
              else []
          | None => []
          end
     else [])%list.
Proof.
  cbv zeta. rewrite ProcessMessage_run.
  destruct (IOTCLIENT_Receive (hIoTClient st) w) as [rx w1]; cbn [fst snd].
  destruct (rx_result rx =? EOK).
  - cbv zeta.
    assert (Hpre : forall rest,
      external_calls ((EvReceive (hIoTClient st) :: message_prints rx
                       ++ extraction_trace (rx_pHeader rx)) ++ rest)
      = (EvReceive (hIoTClient st) ::
         match rx_pHeader rx with
         | Some header => [EvGetProperty header "messageId" RXMSGID_SIZE]
         | None => []
         end ++ external_calls rest)%list).
    { intros rest. rewrite external_calls_app.
      change (external_calls (EvReceive (hIoTClient st) :: message_prints rx
                              ++ extraction_trace (rx_pHeader rx)))
        with (EvReceive (hIoTClient st)
              :: external_calls (message_prints rx
                                 ++ extraction_trace (rx_pHeader rx))).
      rewrite external_calls_app, external_calls_extraction_trace.
      reflexivity. }
    destruct (rx_pBody rx) as [body|].
    + destruct (size_add (rx_headerLength rx) (rx_bodyLength rx)
                <? MAX_MESSAGE_LENGTH).
      * pose proof (external_calls_ProcessCommand st
                      (terminated_body body (rx_bodyLength rx))
                      (extracted_msgId (rx_pHeader rx)) w1) as Hcmd.
        destruct (ProcessCommand _ _ _ w1) as [[r w2] t].
        unfold trace_of in *; cbn [snd] in *.
        rewrite Hpre, external_calls_app, external_calls_error_print, Hcmd.
        rewrite app_nil_r. reflexivity.
      * unfold trace_of; cbn [snd].
        rewrite Hpre, external_calls_error_print. reflexivity.
    + unfold trace_of; cbn [snd].
      rewrite Hpre, external_calls_error_print. reflexivity.
  - unfold trace_of; cbn [snd].
    change (external_calls (EvReceive (hIoTClient st)
                            :: error_print st (rx_result rx)))
      with (EvReceive (hIoTClient st)
            :: external_calls (error_print st (rx_result rx))).
    rewrite external_calls_error_print. reflexivity.
Qed.

(** X5.  [ProcessCommand] on non-NULL arguments calls [popen] once on its
    command.  When [popen] gives a stream it then calls [fileno] on it,
    [IOTCLIENT_Stream] with the selected headers unless the descriptor is
    -1, and last [pclose] on the same stream.  It makes no other call. *)
Theorem ProcessCommand_call_sequence (st : IOTExecState) (cmd : string)
        (msgId : option string) (w : World) :
  external_calls (trace_of (ProcessCommand (Some st) (Some cmd) msgId w))
  = command_calls st cmd msgId (fst (popen cmd "r" w)).
Proof. apply external_calls_ProcessCommand. Qed.

(** X6.  One cycle of [ProcessMessage] makes these calls and no other, in
    this order: [IOTCLIENT_Receive]; when it succeeds with a header, the
    lookup of [messageId]; when it succeeds with a body and the size test
    passes, the calls of [ProcessCommand] on the terminated body. *)
Theorem ProcessMessage_call_sequence (st : IOTExecState) (w : World) :
  let rx := fst (IOTCLIENT_Receive (hIoTClient st) w) in
  let w1 := snd (IOTCLIENT_Receive (hIoTClient st) w) in
  external_calls (trace_of (ProcessMessage (Some st) w))
  = EvReceive (hIoTClient st) ::
    (if rx_result rx =? EOK then
       match rx_pHeader rx with
       | Some header => [EvGetProperty header "messageId" RXMSGID_SIZE]
       | None => []
       end
       ++ match rx_pBody rx with
          | Some body =>
              if size_add (rx_headerLength rx) (rx_bodyLength rx)
                 <? MAX_MESSAGE_LENGTH
              then
                let cmd := terminated_body body (rx_bodyLength rx) in
                command_calls st cmd (extracted_msgId (rx_pHeader rx))
                              (fst (popen cmd "r" w1))
              else []
          | None => []
          end
     else [])%list.
Proof. apply external_calls_ProcessMessage. Qed.

End CallSequence.

(** ** Streams are released, handles are kept *)

Section Release.

Context {P : Platform}.

Lemma flat_map_external_calls {A : Type} (f : Event -> list A)
      (t : list Event) :
  (forall e, is_print e = true -> f e = []) ->
  flat_map f (external_calls t) = flat_map f t.
Proof.
  intros Hf. induction t as [|e t IH]; [reflexivity|].
  unfold external_calls in *. cbn [filter flat_map].
  destruct (is_print e) eqn:He; cbn [negb].
  - rewrite (Hf e He). exact IH.
  - cbn [flat_map]. rewrite IH. reflexivity.
Qed.

Lemma pclose_calls_external (t : list Event) :
  pclose_calls (external_calls t) = pclose_calls t.
Proof.
  apply flat_map_external_calls. intros [] He; try discriminate; reflexivity.
Qed.

Lemma fileno_calls_external (t : list Event) :
  fileno_calls (external_calls t) = fileno_calls t.
Proof.
  apply flat_map_external_calls. intros [] He; try discriminate; reflexivity.
Qed.



(** What the calls of a command open, close and use. *)
Lemma command_calls_summary (st : IOTExecState) (cmd : string)
      (msgId : option string) (fp : option FILE) :
  let t := command_calls st cmd msgId fp in
  pclose_calls t = match fp with Some fp => [fp] | None => [] end
  /\ fileno_calls t = pclose_calls t
  /\ popen_cmds t = [cmd]
  /\ Forall (fun h => h = hIoTClient st) (handles_used t).
Proof.
  cbv zeta. unfold command_calls. destruct fp as [fp|].
  - destruct (fileno fp =? -1); repeat split; repeat constructor.
  - repeat split; constructor.
Qed.

Lemma ProcessCommand_closes (st : IOTExecState) (cmd : string)
      (msgId : option string) (w : World) :
  let t := trace_of (ProcessCommand (Some st) (Some cmd) msgId w) in
  pclose_calls t
  = match fst (popen cmd "r" w) with Some fp => [fp] | None => [] end
  /\ fileno_calls t = pclose_calls t.
Proof.
  cbv zeta.
  pose proof (external_calls_ProcessCommand st cmd msgId w) as Hcalls.
  destruct (command_calls_summary st cmd msgId (fst (popen cmd "r" w)))
    as (Hp & Hf & _).
  rewrite <- Hcalls, pclose_calls_external in Hp.
  rewrite <- Hcalls, fileno_calls_external, pclose_calls_external in Hf.
  split; assumption.
Qed.

(** X7.  [ProcessCommand] releases what it opens: the stream [popen] gave,
    and no other, is given to [pclose], once, as the last thing done,
    whether the descriptor could be obtained or not and whatever
    [IOTCLIENT_Stream] returned.  Without a stream there is no
    [pclose]. *)
Theorem ProcessCommand_releases_stream (st : IOTExecState) (cmd : string)
        (msgId : option string) (w : World) :
  let t := trace_of (ProcessCommand (Some st) (Some cmd) msgId w) in
  match fst (popen cmd "r" w) with
  | Some fp =>
      pclose_calls t = [fp] /\ fileno_calls t = [fp]
      /\ exists before, t = (before ++ [EvPclose fp])%list
  | None => pclose_calls t = [] /\ fileno_calls t = []
  end.
Proof.
  cbv zeta.
  destruct (ProcessCommand_closes st cmd msgId w) as (Hp & Hf).
  rewrite Hf, Hp. clear Hp Hf.
  rewrite ProcessCommand_run.
  destruct (popen cmd "r" w) as [[fp|] w1]; cbn [fst]; [|split; reflexivity].
  split; [reflexivity|]. split; [reflexivity|].
  destruct (fileno fp =? -1).
  - exists (command_prints st cmd msgId ++ [EvPopen cmd "r"; EvFileno fp])%list.
    unfold trace_of; cbn [snd]. rewrite <- app_assoc. reflexivity.
  - destruct (IOTCLIENT_Stream _ _ _ w1) as [r w2].
    exists (command_prints st cmd msgId
            ++ [EvPopen cmd "r"; EvFileno fp;
                EvStream (hIoTClient st) (response_headers msgId)
                         (fileno fp)])%list.
    unfold trace_of; cbn [snd]. rewrite <- app_assoc. reflexivity.
Qed.



End Release.

(** ** Results and what is reported *)

Section Results.

Context {P : Platform}.
Import StringFacts.

(** NULL arguments: [ProcessCommand] without a state or without a
    command, [ProcessMessage] and [ProcessMessages] without a state return
    [EINVAL] at once; nothing is called and the world is left as it
    was. *)
Theorem null_arguments_are_invalid (st : IOTExecState) (cmd : string)
        (msgId : option string) (fuel : nat) (w : World) :
  ProcessCommand None (Some cmd) msgId w = (EINVAL, w, [])
  /\ ProcessCommand (Some st) None msgId w = (EINVAL, w, [])
  /\ ProcessCommand None None msgId w = (EINVAL, w, [])
  /\ ProcessMessage None w = (EINVAL, w, [])
  /\ ProcessMessages fuel None w = (Some EINVAL, w, []).
Proof. repeat split; reflexivity. Qed.

(** X9.  When the descriptor of the command's output cannot be obtained,
    [ProcessCommand] returns [EBADF] without calling [IOTCLIENT_Stream],
    and still closes the stream. *)
Theorem ProcessCommand_no_descriptor (st : IOTExecState) (cmd : string)
        (msgId : option string) (w : World) (fp : FILE) :
  let run := ProcessCommand (Some st) (Some cmd) msgId w in
  fst (popen cmd "r" w) = Some fp ->
  fileno fp = -1 ->
  result_of run = EBADF
  /\ stream_headers (trace_of run) = []
  /\ pclose_calls (trace_of run) = [fp]
  /\ world_of run = pclose fp (snd (popen cmd "r" w)).
Proof.
  cbv zeta. intros Hpopen Hfd.
  destruct (ProcessCommand_closes st cmd msgId w) as (Hp & _).
  rewrite Hpopen in Hp.
  rewrite ProcessCommand_stream_headers, Hpopen, Hfd.
  repeat split; try assumption; try reflexivity;
    rewrite ProcessCommand_run;
    destruct (popen cmd "r" w) as [fp' w1]; cbn [fst snd] in *;
    subst fp'; rewrite Hfd; reflexivity.
Qed.

(** X10.  The result of [IOTCLIENT_Stream] is the result of the cycle, as it
    is: when the message is accepted, the command started and its
    descriptor obtained, [ProcessMessage] returns what
    [IOTCLIENT_Stream] returned, and leaves the world as [pclose] left
    it. *)
Theorem ProcessMessage_returns_stream_result (st : IOTExecState) (w : World)
        (body : Buffer) (fp : FILE) :
  let rx := fst (IOTCLIENT_Receive (hIoTClient st) w) in
  let w1 := snd (IOTCLIENT_Receive (hIoTClient st) w) in
  let cmd := terminated_body body (rx_bodyLength rx) in
  let streamed :=
    IOTCLIENT_Stream (hIoTClient st)
                     (response_headers (extracted_msgId (rx_pHeader rx)))
                     (fileno fp) (snd (popen cmd "r" w1)) in
  let run := ProcessMessage (Some st) w in
  rx_result rx = EOK ->
  rx_pBody rx = Some body ->
  size_add (rx_headerLength rx) (rx_bodyLength rx) < MAX_MESSAGE_LENGTH ->
  fst (popen cmd "r" w1) = Some fp ->
  fileno fp <> -1 ->
  result_of run = fst streamed
  /\ world_of run = pclose fp (snd streamed).
Proof.
  cbv zeta. intros Hres Hbody Hsize Hpopen Hfd.
  set (rx := fst (IOTCLIENT_Receive (hIoTClient st) w)) in *.
  assert (accepted rx = true) as Hacc.
  { unfold accepted. rewrite Hbody. apply Z.ltb_lt. exact Hsize. }
  rewrite (ProcessMessage_accepted st w body Hres Hbody Hacc). fold rx.
  unfold result_of at 1, world_of at 1; cbn [fst snd].
  rewrite ProcessCommand_run.
  destruct (popen _ "r" _) as [fp' w2]; cbn [fst snd] in *. subst fp'.
  apply Z.eqb_neq in Hfd. rewrite Hfd.
  destruct (IOTCLIENT_Stream _ _ _ w2) as [r w3]. split; reflexivity.
Qed.

(** X11.  A failed receive is the result of the cycle, as it is: nothing but
    [IOTCLIENT_Receive] is called, whatever the call left in its output
    parameters. *)
Theorem ProcessMessage_returns_receive_error (st : IOTExecState)
        (w : World) :
  let rx := fst (IOTCLIENT_Receive (hIoTClient st) w) in
  let run := ProcessMessage (Some st) w in
  rx_result rx <> EOK ->
  result_of run = rx_result rx
  /\ world_of run = snd (IOTCLIENT_Receive (hIoTClient st) w)
  /\ external_calls (trace_of run) = [EvReceive (hIoTClient st)].
Proof.
  cbv zeta. intros Hres. split; [|split].
  - rewrite (ProcessMessage_receive_failed st w Hres). reflexivity.
  - rewrite (ProcessMessage_receive_failed st w Hres). reflexivity.
  - rewrite external_calls_ProcessMessage.
    apply Z.eqb_neq in Hres. rewrite Hres. reflexivity.
Qed.




(** X13.  The verbose flag changes what is printed and nothing else: with the
    same handle, a verbose and a quiet state give the same result, leave
    the same world and make the same external calls. *)
Theorem verbose_only_prints (h : IOTCLIENT_HANDLE) (v v' : bool)
        (w : World) :
  let run := ProcessMessage (Some (mkState h v)) w in
  let run' := ProcessMessage (Some (mkState h v')) w in
  result_of run = result_of run'
  /\ world_of run = world_of run'
  /\ external_calls (trace_of run) = external_calls (trace_of run').
Proof.
  cbv zeta.
  assert (Hcmd : forall cmd msgId w1,
    result_of (ProcessCommand (Some (mkState h v)) (Some cmd) msgId w1)
    = result_of (ProcessCommand (Some (mkState h v')) (Some cmd) msgId w1)
    /\ world_of (ProcessCommand (Some (mkState h v)) (Some cmd) msgId w1)
       = world_of (ProcessCommand (Some (mkState h v')) (Some cmd) msgId w1)).
  { intros cmd msgId w1. rewrite !ProcessCommand_run. cbn [hIoTClient].
    destruct (popen cmd "r" w1) as [[fp|] w2]; [|split; reflexivity].
    destruct (fileno fp =? -1); [split; reflexivity|].
    destruct (IOTCLIENT_Stream _ _ _ w2) as [r w3]. split; reflexivity. }
  split; [|split].
  - rewrite !ProcessMessage_run. cbn [hIoTClient].
    destruct (IOTCLIENT_Receive h w) as [rx w1].
    destruct (rx_result rx =? EOK); [|reflexivity]. cbv zeta.
    destruct (rx_pBody rx) as [body|]; [|reflexivity].
    destruct (size_add _ _ <? _); [|reflexivity].
    destruct (Hcmd (terminated_body body (rx_bodyLength rx))
                   (extracted_msgId (rx_pHeader rx)) w1) as [Hr _].
    destruct (ProcessCommand (Some (mkState h v)) _ _ w1) as [[r w2] t].
    destruct (ProcessCommand (Some (mkState h v')) _ _ w1) as [[r' w2'] t'].
    exact Hr.
  - rewrite !ProcessMessage_run. cbn [hIoTClient].
    destruct (IOTCLIENT_Receive h w) as [rx w1].
    destruct (rx_result rx =? EOK); [|reflexivity]. cbv zeta.
    destruct (rx_pBody rx) as [body|]; [|reflexivity].
    destruct (size_add _ _ <? _); [|reflexivity].
    destruct (Hcmd (terminated_body body (rx_bodyLength rx))
                   (extracted_msgId (rx_pHeader rx)) w1) as [_ Hw].
    destruct (ProcessCommand (Some (mkState h v)) _ _ w1) as [[r w2] t].
    destruct (ProcessCommand (Some (mkState h v')) _ _ w1) as [[r' w2'] t'].
    exact Hw.
  - rewrite !external_calls_ProcessMessage. reflexivity.
Qed.

(** X14.  The correlation line is in the headers exactly when it fits the
    scratch buffer, and then the identifier can be read back from them:
    two identifiers that fit and give the same headers are the same. *)
Theorem response_headers_identify (id1 id2 : string) :
  BUFSIZ <= INT_MAX ->
  (response_headers (Some id1) = format_correlation base_headers id1
   <-> 47 + strlen id1 < BUFSIZ)
  /\ (47 + strlen id1 < BUFSIZ ->
      response_headers (Some id1) = response_headers (Some id2) ->
      id1 = id2).
Proof.
  intros Hmax. split; [split|].
  - intros Hfmt. destruct (Z_lt_le_dec (47 + strlen id1) BUFSIZ) as [H|H];
      [exact H|].
    rewrite (response_headers_overflow id1 Hmax H) in Hfmt.
    symmetry in Hfmt. exfalso. exact (format_correlation_not_base id1 Hfmt).
  - intros Hfit. apply response_headers_fits; lia.
  - intros Hfit Heq. rewrite (response_headers_fits id1) in Heq by lia.
    destruct (response_headers_cases id2 Hmax) as [H2|H2]; rewrite H2 in Heq.
    + exfalso. exact (format_correlation_not_base id1 Heq).
    + apply format_correlation_inj in Heq. exact Heq.
Qed.

End Results.

Lemma ProcessCommand_no_descriptor_witness :
  let w := Sample.mkWorld [] true (-1) EOK [] in
  let run := ProcessCommand (Some Sample.st0) (Some "date") None w in
  result_of run = EBADF
  /\ stream_headers (trace_of run) = []
  /\ pclose_calls (trace_of run) = [-1]
  /\ world_of run = w.
Proof.
  apply (ProcessCommand_no_descriptor
           Sample.st0 "date" None (Sample.mkWorld [] true (-1) EOK []) (-1));
    reflexivity.
Defined.

Lemma ProcessMessage_returns_stream_result_witness :
  let w := Sample.mkWorld [Sample.msg_date] true 3 5 [] in
  let run := ProcessMessage (Some Sample.st0) w in
  result_of run = 5
  /\ world_of run
     = Sample.mkWorld [] true 3 5
         [(format_correlation base_headers "abc123", 3)].
Proof.
  apply (ProcessMessage_returns_stream_result
           Sample.st0 (Sample.mkWorld [Sample.msg_date] true 3 5 [])
           (buffer_of_string "date") 3);
    [reflexivity | reflexivity | reflexivity | reflexivity | discriminate].
Defined.

Lemma ProcessMessage_returns_receive_error_witness :
  let w := Sample.world_with [] in
  let run := ProcessMessage (Some Sample.st_verbose) w in
  result_of run = Sample.EAGAIN
  /\ world_of run = w
  /\ external_calls (trace_of run) = [EvReceive (hIoTClient Sample.st_verbose)].
Proof.
  apply (ProcessMessage_returns_receive_error
           Sample.st_verbose (Sample.world_with [])).
  discriminate.
Defined.

Lemma response_headers_identify_witness :
  (response_headers (P := Sample.platform) (Some "abc123")
   = format_correlation base_headers "abc123"
   <-> 47 + strlen "abc123" < 8192)
  /\ (47 + strlen "abc123" < 8192 ->
      response_headers (P := Sample.platform) (Some "abc123")
      = response_headers (P := Sample.platform) (Some "abc124") ->
      "abc123" = "abc124").
Proof.
  apply (response_headers_identify (P := Sample.platform) "abc123" "abc124").
  vm_compute. discriminate.
Defined.


(** ** The command line options *)

Section OptionFacts.

Context {P : Platform} {Su : Startup}.

(** One step of the options loop. *)
Lemma ProcessOptions_loop_step (fuel : nat) (argC : Z) (argV : list string)
      (state : StateObject) (w : World) :
  ProcessOptions_loop (S fuel) argC argV state w =
  let '(c, w1) := getopt argC argV "hv" w in
  let ev := EvGetopt argC argV "hv" c in
  if c =? -1 then (Some state, w1, [ev])
  else if c =? opt_v then
    let '(o, w2, t) :=
      ProcessOptions_loop fuel argC argV
                          (mkObject (obj_hIoTClient state) true) w1 in
    (o, w2, ev :: t)
  else if c =? opt_h then
    let '(o, w2, t) := ProcessOptions_loop fuel argC argV state w1 in
    (o, w2, ev :: match nth_error argV 0 with
                  | Some cmdname => [EvUsage cmdname]
                  | None => []
                  end ++ t)
  else
    let '(o, w2, t) := ProcessOptions_loop fuel argC argV state w1 in
    (o, w2, ev :: t).
Proof.
  cbn [ProcessOptions_loop]. unfold hbind, call_getopt, usage, hret.
  destruct (getopt argC argV "hv" w) as [c w1].
  destruct (c =? -1); [reflexivity|].
  destruct (c =? opt_v).
  - destruct (ProcessOptions_loop fuel argC argV _ w1) as [[o w2] t].
    reflexivity.
  - destruct (c =? opt_h).
    + destruct (nth_error argV 0) as [cmdname|];
        destruct (ProcessOptions_loop fuel argC argV state w1) as [[o w2] t];
        reflexivity.
    + destruct (ProcessOptions_loop fuel argC argV state w1) as [[o w2] t].
      reflexivity.
Qed.

(** Once the loop has ended, more fuel changes nothing. *)
Lemma ProcessOptions_loop_mono (fuel extra : nat) (argC : Z)
      (argV : list string) (state : StateObject) (w : World) :
  outcome_of (ProcessOptions_loop fuel argC argV state w) <> None ->
  ProcessOptions_loop (fuel + extra) argC argV state w
  = ProcessOptions_loop fuel argC argV state w.
Proof.
  revert state w. induction fuel as [|fuel IH]; intros state w Hdone.
  - exfalso. apply Hdone. reflexivity.
  - change (S fuel + extra)%nat with (S (fuel + extra)).
    rewrite !ProcessOptions_loop_step in *.
    destruct (getopt argC argV "hv" w) as [c w1]. cbv zeta in *.
    destruct (c =? -1); [reflexivity|].
    destruct (c =? opt_v); [|destruct (c =? opt_h)].
    + specialize (IH (mkObject (obj_hIoTClient state) true) w1).
      destruct (ProcessOptions_loop fuel argC argV _ w1) as [[o w2] t].
      rewrite IH by exact Hdone. reflexivity.
    + specialize (IH state w1).
      destruct (ProcessOptions_loop fuel argC argV state w1) as [[o w2] t].
      rewrite IH by exact Hdone. reflexivity.
    + specialize (IH state w1).
      destruct (ProcessOptions_loop fuel argC argV state w1) as [[o w2] t].
      rewrite IH by exact Hdone. reflexivity.
Qed.

Lemma ProcessOptions_loop_ends (n : nat) (argC : Z) (argV : list string)
      (state : StateObject) (w : World) :
  getopt_ends n argC argV w = true ->
  outcome_of (ProcessOptions_loop (S n) argC argV state w) <> None.
Proof.
  revert state w. induction n as [|n IH]; intros state w Hends;
    rewrite ProcessOptions_loop_step; cbn [getopt_ends] in Hends;
    destruct (getopt argC argV "hv" w) as [c w1]; cbv zeta;
    destruct (c =? -1); try discriminate.
  destruct (c =? opt_v); [|destruct (c =? opt_h)].
  - specialize (IH (mkObject (obj_hIoTClient state) true) w1 Hends).
    destruct (ProcessOptions_loop (S n) argC argV _ w1) as [[o w2] t].
    exact IH.
  - specialize (IH state w1 Hends).
    destruct (ProcessOptions_loop (S n) argC argV state w1) as [[o w2] t].
    exact IH.
  - specialize (IH state w1 Hends).
    destruct (ProcessOptions_loop (S n) argC argV state w1) as [[o w2] t].
    exact IH.
Qed.

(** What the loop leaves, when it ends: the handle is untouched, the
    verbose flag is set when [getopt] returned [v] and kept otherwise, and
    the usage message was printed once for each [h] returned. *)
Lemma ProcessOptions_loop_effect (fuel : nat) (argC : Z) (argV : list string)
      (state state' : StateObject) (w : World) :
  let run := ProcessOptions_loop fuel argC argV state w in
  outcome_of run = Some state' ->
  state' = mkObject (obj_hIoTClient state)
             (obj_verbose state
              || existsb (Z.eqb opt_v) (getopt_results (host_trace_of run)))
  /\ usage_prints (host_trace_of run)
     = flat_map (fun c => if c =? opt_h
                          then match nth_error argV 0 with
                               | Some cmdname => [cmdname]
                               | None => []
                               end
                          else [])
                (getopt_results (host_trace_of run))
  /\ exists cs, getopt_results (host_trace_of run) = (cs ++ [-1])%list
                /\ Forall (fun c => c <> -1) cs.
Proof.
  cbv zeta. revert state w. induction fuel as [|fuel IH]; intros state w Hrun.
  - discriminate Hrun.
  - rewrite ProcessOptions_loop_step in *.
    destruct (getopt argC argV "hv" w) as [c w1]. cbv zeta in *.
    destruct (c =? -1) eqn:Hend.
    + apply Z.eqb_eq in Hend. subst c.
      unfold outcome_of in Hrun; cbn [fst] in Hrun.
      injection Hrun as <-.
      unfold host_trace_of; cbn [snd]. destruct state as [h v].
      cbn. rewrite orb_false_r. repeat split.
      exists []. split; [reflexivity | constructor].
    + assert (Hc : c <> -1) by (apply Z.eqb_neq; exact Hend).
      destruct (c =? opt_v) eqn:Hv; [|destruct (c =? opt_h) eqn:Hh].
      * specialize (IH (mkObject (obj_hIoTClient state) true) w1).
        destruct (ProcessOptions_loop fuel argC argV _ w1) as [[o w2] t].
        unfold outcome_of, host_trace_of in *; cbn [fst snd] in *.
        destruct (IH Hrun) as (Hst & Hus & cs & Hcs & Hall).
        cbn [getopt_results usage_prints flat_map app existsb
             obj_hIoTClient] in *.
        fold (getopt_results t) in *. fold (usage_prints t) in *.
        rewrite (Z.eqb_sym opt_v c), Hv.
        assert ((c =? opt_h) = false) as Hnh.
        { apply Z.eqb_eq in Hv. subst c. reflexivity. }
        rewrite Hnh. cbn [orb app]. rewrite orb_true_r.
        split; [exact Hst|]. split; [exact Hus|].
        exists (c :: cs). rewrite Hcs. split; [reflexivity|].
        constructor; assumption.
      * specialize (IH state w1).
        destruct (ProcessOptions_loop fuel argC argV state w1)
          as [[o w2] t].
        unfold outcome_of, host_trace_of in *; cbn [fst snd] in *.
        destruct (IH Hrun) as (Hst & Hus & cs & Hcs & Hall).
        destruct (nth_error argV 0) as [cmdname|];
          cbn [getopt_results usage_prints flat_map app existsb] in *;
          fold (getopt_results t) in *; fold (usage_prints t) in *;
          rewrite (Z.eqb_sym opt_v c), Hv, Hh; cbn [orb app];
          (split; [exact Hst|]); (split; [rewrite Hus; reflexivity|]);
          exists (c :: cs); rewrite Hcs; (split; [reflexivity|]);
          constructor; assumption.
      * specialize (IH state w1).
        destruct (ProcessOptions_loop fuel argC argV state w1)
          as [[o w2] t].
        unfold outcome_of, host_trace_of in *; cbn [fst snd] in *.
        destruct (IH Hrun) as (Hst & Hus & cs & Hcs & Hall).
        cbn [getopt_results usage_prints flat_map app existsb] in *.
        fold (getopt_results t) in *. fold (usage_prints t) in *.
        rewrite (Z.eqb_sym opt_v c), Hv, Hh. cbn [orb app].
        split; [exact Hst|]. split; [exact Hus|].
        exists (c :: cs). rewrite Hcs. split; [reflexivity|].
        constructor; assumption.
Qed.

(** X15.  [ProcessOptions] returns as soon as [getopt] returns -1: when that
    happens within [n] + 1 calls, [n] + 1 steps are enough, more steps
    change nothing, and the value returned is 0. *)
Theorem ProcessOptions_returns (n extra : nat) (argC : Z)
        (argV : list string) (state : StateObject) (w : World) :
  getopt_ends n argC argV w = true ->
  ProcessOptions (S n + extra) argC (Some argV) (Some state) w
  = ProcessOptions (S n) argC (Some argV) (Some state) w
  /\ exists state',
       outcome_of (ProcessOptions (S n) argC (Some argV) (Some state) w)
       = Some (0, Some state').
Proof.
  intros Hends.
  pose proof (ProcessOptions_loop_ends n argC argV state w Hends) as Hdone.
  unfold ProcessOptions, hbind. split.
  - rewrite (ProcessOptions_loop_mono (S n) extra argC argV state w Hdone).
    reflexivity.
  - destruct (ProcessOptions_loop (S n) argC argV state w) as [[o w1] t].
    unfold outcome_of in *; cbn [fst] in *.
    destruct o as [state'|]; [|contradiction].
    exists state'. reflexivity.
Qed.

(** X16.  What [ProcessOptions] does when it returns: the value returned is 0;
    the handle of the state object is untouched; its verbose flag is set
    when [getopt] returned [v] and is never cleared; the usage message is
    printed once for every [h] that [getopt] returned, for [argV[0]], and
    the parse goes on after it; any other character is ignored; the last
    [getopt] call, and no earlier one, returned -1. *)
Theorem ProcessOptions_effect (fuel : nat) (argC : Z) (argV : list string)
        (state : StateObject) (w : World) (r : Z)
        (pState : option StateObject) :
  let run := ProcessOptions fuel argC (Some argV) (Some state) w in
  outcome_of run = Some (r, pState) ->
  r = 0
  /\ pState
     = Some (mkObject (obj_hIoTClient state)
               (obj_verbose state
                || existsb (Z.eqb opt_v)
                           (getopt_results (host_trace_of run))))
  /\ usage_prints (host_trace_of run)
     = flat_map (fun c => if c =? opt_h
                          then match nth_error argV 0 with
                               | Some cmdname => [cmdname]
                               | None => []
                               end
                          else [])
                (getopt_results (host_trace_of run))
  /\ exists cs, getopt_results (host_trace_of run) = (cs ++ [-1])%list
                /\ Forall (fun c => c <> -1) cs.
Proof.
  cbv zeta. unfold ProcessOptions, hbind.
  pose proof (ProcessOptions_loop_effect fuel argC argV state) as Hloop.
  cbv zeta in Hloop. specialize (fun s' => Hloop s' w).
  destruct (ProcessOptions_loop fuel argC argV state w) as [[o w1] t].
  unfold outcome_of, host_trace_of in *; cbn [fst snd] in *.
  destruct o as [state'|]; cbn [hret fst snd]; [|discriminate].
  intros [= <- <-]. rewrite app_nil_r.
  destruct (Hloop state' eq_refl) as (Hst & Hus & Hcs).
  split; [reflexivity|]. split; [f_equal; exact Hst|].
  split; assumption.
Qed.

(** Without a state object or without an argument vector,
    [ProcessOptions] returns 0 all the same, calls nothing and leaves the
    state object as it is. *)
Theorem ProcessOptions_null_arguments (fuel : nat) (argC : Z)
        (argV : option (list string)) (pState : option StateObject)
        (w : World) :
  pState = None \/ argV = None ->
  ProcessOptions fuel argC argV pState w = (Some (0, pState), w, []).
Proof.
  intros [-> | ->]; [reflexivity|]. destruct pState; reflexivity.
Qed.

End OptionFacts.

(** ** [main] *)

Section MainFacts.

Context {P : Platform} {Su : Startup}.

Lemma service_events_map (t : list Event) :
  service_events (map EvService t) = t.
Proof.
  induction t as [|e t IH]; [reflexivity|].
  cbn [map service_events flat_map app].
  fold (service_events (map EvService t)).
  rewrite IH. reflexivity.
Qed.

Lemma close_calls_map (t : list Event) : close_calls (map EvService t) = [].
Proof. induction t as [|e t IH]; [reflexivity | exact IH]. Qed.

(** The options loop calls [getopt] and prints the usage message, and
    nothing else. *)
Lemma ProcessOptions_loop_quiet (fuel : nat) (argC : Z) (argV : list string)
      (state : StateObject) (w : World) :
  let t := host_trace_of (ProcessOptions_loop fuel argC argV state w) in
  service_events t = [] /\ close_calls t = [].
Proof.
  cbv zeta. revert state w. induction fuel as [|fuel IH]; intros state w.
  - split; reflexivity.
  - rewrite ProcessOptions_loop_step.
    destruct (getopt argC argV "hv" w) as [c w1]. cbv zeta.
    destruct (c =? -1); [split; reflexivity|].
    destruct (c =? opt_v); [|destruct (c =? opt_h)].
    + specialize (IH (mkObject (obj_hIoTClient state) true) w1).
      destruct (ProcessOptions_loop fuel argC argV _ w1) as [[o w2] t].
      exact IH.
    + specialize (IH state w1).
      destruct (ProcessOptions_loop fuel argC argV state w1) as [[o w2] t].
      destruct (nth_error argV 0); exact IH.
    + specialize (IH state w1).
      destruct (ProcessOptions_loop fuel argC argV state w1) as [[o w2] t].
      exact IH.
Qed.

Lemma setup_trace_quiet (fuel : nat) (argc : Z) (argv : list string)
      (w : World) :
  service_events (setup_trace fuel argc argv w) = []
  /\ close_calls (setup_trace fuel argc argv w) = [].
Proof.
  unfold setup_trace, options_run, ProcessOptions, hbind.
  pose proof (ProcessOptions_loop_quiet fuel argc argv (mkObject None false) w)
    as Hq. cbv zeta in Hq.
  destruct (ProcessOptions_loop fuel argc argv _ w) as [[o w1] t].
  unfold host_trace_of in *; cbn [snd] in *. destruct Hq as [Hs Hc].
  unfold service_events, close_calls in *.
  destruct o; cbn [hret snd]; rewrite !flat_map_app, app_nil_r;
    rewrite ?Hs, ?Hc; split; reflexivity.
Qed.

(** [main], one case per exit path. *)
Lemma main_run (fuel : nat) (argc : Z) (argv : list string) (w : World) :
  main fuel argc argv w =
  match outcome_of (options_run fuel argc argv w) with
  | None =>
      (None, host_world_of (options_run fuel argc argv w),
       host_trace_of (options_run fuel argc argv w))
  | Some _ =>
      let t1 := setup_trace fuel argc argv w in
      let v := parsed_verbose fuel argc argv w in
      match IOTCLIENT_Create (setup_world fuel argc argv w) with
      | (None, w2) => (Some EINVAL, w2, (t1 ++ [EvCreate])%list)
      | (Some h, w2) =>
          let '(r, w4) :=
            IOTCLIENT_CreateReceiver h "exec" MAX_PENDING_MESSAGES
              MAX_MESSAGE_LENGTH (IOTCLIENT_SetVerbose h v w2) in
          if r =? EOK then
            let run := ProcessMessages fuel (Some (mkState h v)) w4 in
            (None, world_of run,
             (t1 ++ client_setup_trace h v
              ++ map EvService (trace_of run))%list)
          else
            (Some r, IOTCLIENT_Close (Some h) w4,
             (t1 ++ client_setup_trace h v ++ [EvClose (Some h)])%list)
      end
  end.
Proof.
  unfold main, setup_trace, setup_world, parsed_verbose, client_setup_trace.
  unfold options_run. unfold hbind at 1.
  destruct (ProcessOptions fuel argc (Some argv) (Some (mkObject None false)) w)
    as [[parsed w1] t1] eqn:Hopt.
  unfold outcome_of, host_world_of, host_trace_of; cbn [fst snd].
  destruct parsed as [[r0 pState]|]; [|cbn [hret]; rewrite app_nil_r;
                                       reflexivity].
  assert (exists s, pState = Some s) as [s ->].
  { unfold ProcessOptions, hbind in Hopt.
    destruct (ProcessOptions_loop fuel argc argv _ w) as [[o w'] t'].
    destruct o; cbn [hret] in Hopt; [|discriminate].
    injection Hopt as _ <- _ _. eauto. }
  unfold SetupTerminationHandler, hbind, call_sigaction, call_Create,
    call_SetVerbose, call_CreateReceiver, call_Close, service, hret.
  destruct (IOTCLIENT_Create (sigaction SIGINT (sigaction SIGTERM w1)))
    as [[h|] w2].
  - destruct (IOTCLIENT_CreateReceiver h "exec" MAX_PENDING_MESSAGES
                MAX_MESSAGE_LENGTH _) as [r w4].
    destruct (r =? EOK).
    + pose proof (ProcessMessages_loop_result
                    (mkState h (obj_verbose s)) fuel w4) as Hnone.
      unfold ProcessMessages at 1.
      change (ProcessMessages fuel (Some (mkState h (obj_verbose s))) w4)
        with (ProcessMessages_loop fuel (Some (mkState h (obj_verbose s))) w4).
      destruct (ProcessMessages_loop fuel _ w4) as [[o w5] t5].
      unfold result_of, world_of, trace_of in *; cbn [fst snd] in *.
      subst o. cbn [app]. rewrite !app_nil_r, <- !app_assoc. reflexivity.
    + cbn [app]. rewrite <- !app_assoc. reflexivity.
  - cbn [app]. rewrite <- !app_assoc. reflexivity.
Qed.

(** Two runs of the options that both ended are the same run. *)
Lemma options_run_stable (fuel fuel' : nat) (argc : Z) (argv : list string)
      (w : World) :
  outcome_of (options_run fuel argc argv w) <> None ->
  outcome_of (options_run fuel' argc argv w) <> None ->
  options_run fuel' argc argv w = options_run fuel argc argv w.
Proof.
  assert (Hloop : forall f,
    outcome_of (options_run f argc argv w) <> None ->
    outcome_of (ProcessOptions_loop f argc argv (mkObject None false) w)
    <> None).
  { intros f. unfold options_run, ProcessOptions, hbind.
    destruct (ProcessOptions_loop f argc argv _ w) as [[o w1] t].
    unfold outcome_of; cbn [fst]. destruct o; [discriminate|].
    intros H _. apply H. reflexivity. }
  intros Hf Hf'. apply Hloop in Hf. apply Hloop in Hf'.
  unfold options_run, ProcessOptions, hbind.
  destruct (Nat.le_ge_cases fuel fuel') as [Hle|Hle].
  - replace fuel' with (fuel + (fuel' - fuel))%nat by lia.
    rewrite (ProcessOptions_loop_mono fuel (fuel' - fuel) argc argv _ w Hf).
    reflexivity.
  - rewrite <- (ProcessOptions_loop_mono fuel' (fuel - fuel') argc argv _ w
                  Hf').
    replace (fuel' + (fuel - fuel'))%nat with fuel by lia.
    reflexivity.
Qed.

(** X17.  When [IOTCLIENT_Create] gives no handle, [main] returns [EINVAL]
    right after it: no receiver is created, no message is received and
    [IOTCLIENT_Close] is not called. *)
Theorem main_without_client (fuel : nat) (argc : Z) (argv : list string)
        (w : World) :
  let run := main fuel argc argv w in
  outcome_of (options_run fuel argc argv w) <> None ->
  fst (IOTCLIENT_Create (setup_world fuel argc argv w)) = None ->
  outcome_of run = Some EINVAL
  /\ host_trace_of run = (setup_trace fuel argc argv w ++ [EvCreate])%list
  /\ service_events (host_trace_of run) = []
  /\ close_calls (host_trace_of run) = [].
Proof.
  cbv zeta. intros Hopt Hcreate. rewrite main_run.
  destruct (outcome_of (options_run fuel argc argv w)); [|contradiction].
  cbv zeta.
  destruct (IOTCLIENT_Create (setup_world fuel argc argv w)) as [[h|] w2];
    cbn [fst] in Hcreate; [discriminate|].
  unfold outcome_of, host_trace_of; cbn [fst snd].
  destruct (setup_trace_quiet fuel argc argv w) as [Hs Hc].
  unfold service_events, close_calls in *.
  rewrite !flat_map_app, Hs, Hc. repeat split; reflexivity.
Qed.

(** X18.  When the receiver cannot be created, [main] returns the result of
    [IOTCLIENT_CreateReceiver] after closing the client once: no message
    is received. *)
Theorem main_without_receiver (fuel : nat) (argc : Z) (argv : list string)
        (w : World) (h : IOTCLIENT_HANDLE) :
  let v := parsed_verbose fuel argc argv w in
  let created :=
    IOTCLIENT_CreateReceiver h "exec" MAX_PENDING_MESSAGES MAX_MESSAGE_LENGTH
      (IOTCLIENT_SetVerbose h v
         (snd (IOTCLIENT_Create (setup_world fuel argc argv w)))) in
  let run := main fuel argc argv w in
  outcome_of (options_run fuel argc argv w) <> None ->
  fst (IOTCLIENT_Create (setup_world fuel argc argv w)) = Some h ->
  fst created <> EOK ->
  outcome_of run = Some (fst created)
  /\ host_world_of run = IOTCLIENT_Close (Some h) (snd created)
  /\ host_trace_of run
     = (setup_trace fuel argc argv w ++ client_setup_trace h v
        ++ [EvClose (Some h)])%list
  /\ service_events (host_trace_of run) = []
  /\ close_calls (host_trace_of run) = [Some h].
Proof.
  cbv zeta. intros Hopt Hcreate Hrc. rewrite main_run.
  destruct (outcome_of (options_run fuel argc argv w)); [|contradiction].
  cbv zeta.
  destruct (IOTCLIENT_Create (setup_world fuel argc argv w)) as [[h'|] w2];
    cbn [fst snd] in *; [|discriminate].
  injection Hcreate as ->.
  destruct (IOTCLIENT_CreateReceiver h "exec" _ _ _) as [r w4];
    cbn [fst snd] in *.
  apply Z.eqb_neq in Hrc. rewrite Hrc.
  unfold outcome_of, host_world_of, host_trace_of; cbn [fst snd].
  destruct (setup_trace_quiet fuel argc argv w) as [Hs Hc].
  unfold service_events, close_calls in *.
  rewrite !flat_map_app, Hs, Hc. repeat split; reflexivity.
Qed.

Lemma main_serving (fuel : nat) (argc : Z) (argv : list string)
      (w : World) (h : IOTCLIENT_HANDLE) :
  let v := parsed_verbose fuel argc argv w in
  let created :=
    IOTCLIENT_CreateReceiver h "exec" MAX_PENDING_MESSAGES MAX_MESSAGE_LENGTH
      (IOTCLIENT_SetVerbose h v
         (snd (IOTCLIENT_Create (setup_world fuel argc argv w)))) in
  let loop := ProcessMessages fuel (Some (mkState h v)) (snd created) in
  let run := main fuel argc argv w in
  outcome_of (options_run fuel argc argv w) <> None ->
  fst (IOTCLIENT_Create (setup_world fuel argc argv w)) = Some h ->
  fst created = EOK ->
  outcome_of run = None
  /\ host_trace_of run
     = (host_trace_of (options_run fuel argc argv w)
        ++ [EvSigaction SIGTERM; EvSigaction SIGINT;
            EvCreate; EvSetVerbose h v; EvCreateReceiver h "exec" 10 4096]
        ++ map EvService (trace_of loop))%list
  /\ service_events (host_trace_of run) = trace_of loop
  /\ close_calls (host_trace_of run) = [].
Proof.
  cbv zeta. intros Hopt Hcreate Hrc. rewrite main_run.
  destruct (outcome_of (options_run fuel argc argv w)); [|contradiction].
  cbv zeta.
  destruct (IOTCLIENT_Create (setup_world fuel argc argv w)) as [[h'|] w2];
    cbn [fst snd] in *; [|discriminate].
  injection Hcreate as ->.
  destruct (IOTCLIENT_CreateReceiver h "exec" _ _ _) as [r w4];
    cbn [fst snd] in *.
  subst r. change (EOK =? EOK) with true. cbv iota.
  unfold outcome_of, host_trace_of; cbn [fst snd].
  destruct (setup_trace_quiet fuel argc argv w) as [Hs Hc].
  split; [reflexivity|]. split; [|split].
  - unfold setup_trace, host_trace_of. rewrite <- !app_assoc. reflexivity.
  - unfold service_events, close_calls in *.
    rewrite !flat_map_app, Hs. fold (service_events (map EvService
      (trace_of (ProcessMessages fuel
         (Some (mkState h (parsed_verbose fuel argc argv w))) w4)))).
    rewrite service_events_map. reflexivity.
  - unfold service_events, close_calls in *.
    rewrite !flat_map_app, Hc.
    fold (close_calls (map EvService
      (trace_of (ProcessMessages fuel
         (Some (mkState h (parsed_verbose fuel argc argv w))) w4)))).
    rewrite close_calls_map. reflexivity.
Qed.

(** X19.  When the receiver is created, [main] goes into the message loop:
    before the first message is received, the handler is registered for
    [SIGTERM] and [SIGINT], the client is created and given the verbose
    flag read from the options, and the receiver is created for [exec]
    with 10 pending messages of 4096 bytes; then the loop runs with the
    handle [IOTCLIENT_Create] gave and that flag, and
    [IOTCLIENT_Close] is not called. *)
Theorem main_serves (fuel : nat) (argc : Z) (argv : list string)
        (w : World) (h : IOTCLIENT_HANDLE) :
  let v := parsed_verbose fuel argc argv w in
  let created :=
    IOTCLIENT_CreateReceiver h "exec" MAX_PENDING_MESSAGES MAX_MESSAGE_LENGTH
      (IOTCLIENT_SetVerbose h v
         (snd (IOTCLIENT_Create (setup_world fuel argc argv w)))) in
  let loop := ProcessMessages fuel (Some (mkState h v)) (snd created) in
  let run := main fuel argc argv w in
  outcome_of (options_run fuel argc argv w) <> None ->
  fst (IOTCLIENT_Create (setup_world fuel argc argv w)) = Some h ->
  fst created = EOK ->
  outcome_of run = None
  /\ host_trace_of run
     = (host_trace_of (options_run fuel argc argv w)
        ++ [EvSigaction SIGTERM; EvSigaction SIGINT;
            EvCreate; EvSetVerbose h v; EvCreateReceiver h "exec" 10 4096]
        ++ map EvService (trace_of loop))%list
  /\ service_events (host_trace_of run) = trace_of loop
  /\ close_calls (host_trace_of run) = [].
Proof. apply main_serving. Qed.

(** X20.  Once the options are read, the client created and the receiver
    created, [main] never returns and never closes the client, however
    long it is run. *)
Theorem main_never_returns (n : nat) (argc : Z) (argv : list string)
        (w : World) (h : IOTCLIENT_HANDLE) :
  let v := parsed_verbose n argc argv w in
  let created :=
    IOTCLIENT_CreateReceiver h "exec" MAX_PENDING_MESSAGES MAX_MESSAGE_LENGTH
      (IOTCLIENT_SetVerbose h v
         (snd (IOTCLIENT_Create (setup_world n argc argv w)))) in
  outcome_of (options_run n argc argv w) <> None ->
  fst (IOTCLIENT_Create (setup_world n argc argv w)) = Some h ->
  fst created = EOK ->
  forall fuel,
    outcome_of (main fuel argc argv w) = None
    /\ close_calls (host_trace_of (main fuel argc argv w)) = [].
Proof.
  cbv zeta. intros Hopt Hcreate Hrc fuel.
  destruct (outcome_of (options_run fuel argc argv w)) eqn:Hfuel.
  - assert (Hsame : options_run fuel argc argv w = options_run n argc argv w).
    { apply options_run_stable; [exact Hopt|]. rewrite Hfuel. discriminate. }
    assert (Hdone : outcome_of (options_run fuel argc argv w) <> None)
      by (rewrite Hfuel; discriminate).
    destruct (main_serving fuel argc argv w h Hdone) as (Hout & _ & _ & Hcl).
    + unfold setup_world. rewrite Hsame. exact Hcreate.
    + unfold parsed_verbose, setup_world. rewrite Hsame. exact Hrc.
    + split; assumption.
  - rewrite main_run, Hfuel.
    unfold outcome_of at 1, host_trace_of at 1; cbn [fst snd].
    split; [reflexivity|].
    unfold options_run, ProcessOptions, hbind.
    pose proof (ProcessOptions_loop_quiet fuel argc argv
                  (mkObject None false) w) as Hq. cbv zeta in Hq.
    destruct (ProcessOptions_loop fuel argc argv _ w) as [[o w1] t].
    unfold host_trace_of in *; cbn [snd] in *. destruct Hq as [_ Hc].
    unfold close_calls in *.
    destruct o; cbn [hret snd]; rewrite flat_map_app, Hc; reflexivity.
Qed.

End MainFacts.

Lemma ProcessOptions_returns_witness :
  let w := Host.host [] true EOK in
  let state := mkObject (P := Host.platform) None false in
  ProcessOptions (Su := Host.startup) 10 3 (Some Host.argv) (Some state) w
  = ProcessOptions (Su := Host.startup) 3 3 (Some Host.argv) (Some state) w
  /\ exists state',
       outcome_of (ProcessOptions (Su := Host.startup) 3 3 (Some Host.argv)
                                  (Some state) w)
       = Some (0, Some state').
Proof.
  apply (ProcessOptions_returns (Su := Host.startup) 2 7 3 Host.argv
           (mkObject (P := Host.platform) None false)
           (Host.host [] true EOK)).
  reflexivity.
Defined.

Lemma ProcessOptions_effect_witness :
  let w := Host.host [] true EOK in
  let state := mkObject (P := Host.platform) None false in
  let run :=
    ProcessOptions (Su := Host.startup) 3 3 (Some Host.argv) (Some state) w in
  outcome_of run = Some (0, Some (mkObject None true))
  /\ usage_prints (host_trace_of run) = ["iotexec"]
  /\ getopt_results (host_trace_of run) = [opt_v; opt_h; -1].
Proof.
  cbv zeta.
  destruct (ProcessOptions_effect (Su := Host.startup) 3 3 Host.argv
              (mkObject (P := Host.platform) None false)
              (Host.host [] true EOK) 0 (Some (mkObject None true)))
    as (_ & _ & Hus & _); [reflexivity|].
  split; [reflexivity|]. split; [exact Hus | reflexivity].
Defined.

Lemma ProcessOptions_null_arguments_witness :
  ProcessOptions (Su := Host.startup) 3 3 None
                 (Some (mkObject (P := Host.platform) None false))
                 (Host.host [] true EOK)
  = (Some (0, Some (mkObject None false)), Host.host [] true EOK, []).
Proof.
  apply (ProcessOptions_null_arguments (Su := Host.startup)).
  right. reflexivity.
Defined.

Lemma main_without_client_witness :
  let run :=
    main (Su := Host.startup) 3 3 Host.argv
         (Host.host [Sample.msg_echo] false EOK) in
  outcome_of run = Some EINVAL
  /\ service_events (host_trace_of run) = []
  /\ close_calls (host_trace_of run) = [].
Proof.
  cbv zeta.
  destruct (main_without_client (Su := Host.startup) 3 3 Host.argv
              (Host.host [Sample.msg_echo] false EOK))
    as (Hr & _ & Hs & Hc); [discriminate | reflexivity |].
  repeat split; assumption.
Defined.

Lemma main_without_receiver_witness :
  let run :=
    main (Su := Host.startup) 3 3 Host.argv
         (Host.host [Sample.msg_echo] true 13) in
  outcome_of run = Some 13
  /\ Host.closed (host_world_of run) = 1%nat
  /\ service_events (host_trace_of run) = []
  /\ close_calls (host_trace_of run) = [Some tt].
Proof.
  cbv zeta.
  destruct (main_without_receiver (Su := Host.startup) 3 3 Host.argv
              (Host.host [Sample.msg_echo] true 13) tt)
    as (Hr & Hw & _ & Hs & Hc); [discriminate | reflexivity | discriminate |].
  split; [exact Hr|]. split; [rewrite Hw; reflexivity|].
  split; assumption.
Defined.

Lemma main_serves_witness :
  let run :=
    main (Su := Host.startup) 3 3 Host.argv
         (Host.host [Sample.msg_echo] true EOK) in
  outcome_of run = None
  /\ popen_cmds (service_events (host_trace_of run)) = ["echo hello"]
  /\ receive_count (service_events (host_trace_of run)) = 3%nat
  /\ close_calls (host_trace_of run) = [].
Proof.
  cbv zeta.
  destruct (main_serves (Su := Host.startup) 3 3 Host.argv
              (Host.host [Sample.msg_echo] true EOK) tt)
    as (Hr & _ & Hs & Hc); [discriminate | reflexivity | reflexivity |].
  split; [exact Hr|]. rewrite Hs.
  split; [reflexivity|]. split; [reflexivity | exact Hc].
Defined.

Lemma main_never_returns_witness :
  outcome_of (main (Su := Host.startup) 40 3 Host.argv
                   (Host.host [Sample.msg_echo] true EOK)) = None
  /\ close_calls
       (host_trace_of (main (Su := Host.startup) 40 3 Host.argv
                            (Host.host [Sample.msg_echo] true EOK))) = [].
Proof.
  apply (main_never_returns (Su := Host.startup) 3 3 Host.argv
           (Host.host [Sample.msg_echo] true EOK) tt);
    [discriminate | reflexivity | reflexivity].
Defined.
